(** * koddsson/assert: the assertion set of [src/index.ts], embedded in Rocq

    The library is a flat set of assertion functions.  Each one either
    returns normally (the assertion passes) or throws (it fails); all of
    them report failure through [fail], and the structural assertions go
    through [_deepEqual].

    The embedding is shallow.  JavaScript values are an inductive type,
    a function call yields a [result] (a returned value or a thrown one),
    and the body of a [void] function is a [completion], so that the
    early [return]s and the fall-through of the source stay visible.

    Values are finite trees: an object holds its members, so object
    graphs with reference cycles are not among them.  Properties are
    data properties; getters, proxies and symbols are left out. *)

From Stdlib Require Import String Ascii List ZArith Bool Lia Arith.
From Stdlib Require Import DecimalString DecimalNat DecimalZ.
Import ListNotations.
Open Scope string_scope.
Set Warnings "-register-all".

(** ** Values of the host language *)

Module JS.

(** Numbers.  The model keeps the integers that a double represents
    exactly and prints digit by digit (the safe integers, below 2^53 in
    magnitude) together with the special values that the equality
    operators treat apart: NaN, the two infinities and negative zero.
    [Int 0] is [+0]. *)
Inductive number : Type :=
| NaN
| Infinity (negative : bool)
| NegZero
| Int (z : Z).

Definition safe_integer (n : number) : Prop :=
  match n with
  | Int z => (Z.abs z < 2 ^ 53)%Z
  | _ => True
  end.

(** The classes the assertions tell apart with [instanceof]; an object
    of any other class counts as [ClassObject].  The assertions run
    where the DOM is present, so that [NodeList] is defined. *)
Inductive class : Type :=
| ClassObject
| ClassArray
| ClassNodeList
| ClassMap
| ClassSet
| ClassFunction.

(** What [ToPrimitive] makes of an object.  Running the conversion
    methods of an object ([toString], [valueOf]) means calling
    functions, which the model does not do; an object therefore carries
    the outcome of its conversion, under the hint "string" (template
    literals) and under the default hint ([==]): the primitive that
    comes out, or the error that is thrown (a TypeError when no method
    yields a primitive). *)
Inductive primitive : Type :=
| PUndefined
| PNull
| PBool (b : bool)
| PNum (n : number)
| PStr (s : string).

Inductive converted : Type :=
| Gives (p : primitive)
| Raises (name message : string).

Record conversion : Type := {
  as_string : converted;
  as_default : converted
}.

(** A value is a primitive or an object.  An object carries
    - its reference [ref] (its identity, what [===] compares) and its
      class;
    - [own]: its own enumerable properties, in the order in which
      [Object.keys] lists them (the elements of an array are its own
      properties ["0"], ["1"], ...);
    - [inherited]: the enumerable properties it inherits through the
      prototype chain and that no nearer property hides, in the order
      [for...in] visits them;
    - [hidden]: the remaining properties, which [in] and a property
      read can see but enumeration cannot: the non-enumerable ones, own
      ([length] of an array) or inherited ([toString] of an object
      literal);
    - [conv]: the outcome of its conversion to a primitive. *)
Inductive value : Type :=
| VUndefined
| VNull
| VBool (b : bool)
| VNum (n : number)
| VStr (s : string)
| VObject (ref : nat) (cls : class)
          (own inherited hidden : list (string * value))
          (conv : conversion).

Definition of_primitive (p : primitive) : value :=
  match p with
  | PUndefined => VUndefined
  | PNull => VNull
  | PBool b => VBool b
  | PNum n => VNum n
  | PStr s => VStr s
  end.

(** What a [throw] carries: an instance of [Error] (or of a subclass,
    told apart by [name]) with its message, or any other value. *)
Inductive thrown : Type :=
| ErrorObject (name message : string)
| Thrown (v : value).

(** The outcome of a call. *)
Inductive result (A : Type) : Type :=
| Returns (a : A)
| Throws (e : thrown).
Arguments Returns {A} a.
Arguments Throws {A} e.

Definition bind {A B : Type} (r : result A) (k : A -> result B) : result B :=
  match r with
  | Returns a => k a
  | Throws e => Throws e
  end.

Notation "x <- r ;; k" := (bind r (fun x => k))
  (at level 61, r at next level, right associativity).

(** The errors the host itself raises.  Their kind is what matters;
    the wording of the messages differs between engines and the texts
    used below stand in for it. *)
Definition TypeError (message : string) : thrown := ErrorObject "TypeError" message.
Definition SyntaxError (message : string) : thrown := ErrorObject "SyntaxError" message.

Definition instanceof_Error (e : thrown) : bool :=
  match e with
  | ErrorObject _ _ => true
  | Thrown _ => false
  end.

(** ** Conversions *)

Definition truthy (v : value) : bool :=
  match v with
  | VUndefined | VNull => false
  | VBool b => b
  | VNum NaN | VNum NegZero | VNum (Int 0) => false
  | VNum _ => true
  | VStr s => negb (String.eqb s EmptyString)
  | _ => true
  end.

Definition index_key (i : nat) : string := NilZero.string_of_uint (Nat.to_uint i).

(** [Number::toString], on the numbers of the model: an integer is
    printed digit by digit, as the host prints the safe integers (from
    10^21 on the host switches to the exponent form, which is why the
    statements about printed numbers are made on [safe_integer]s). *)
Definition Number_toString (n : number) : string :=
  match n with
  | NaN => "NaN"
  | Infinity false => "Infinity"
  | Infinity true => "-Infinity"
  | NegZero => "0"
  | Int z => NilZero.string_of_int (Z.to_int z)
  end.

Fixpoint join (parts : list string) : string :=
  match parts with
  | [] => EmptyString
  | [p] => p
  | p :: rest => p ++ "," ++ join rest
  end.

Definition primitive_text (p : primitive) : string :=
  match p with
  | PUndefined => "undefined"
  | PNull => "null"
  | PBool true => "true"
  | PBool false => "false"
  | PNum n => Number_toString n
  | PStr s => s
  end.

(** The string [ToString] returns where it returns: for a primitive its
    text, for an object the text of the primitive its conversion gives.
    (Where the conversion throws there is none; [template] below is the
    operation with its error.) *)
Definition ToString (v : value) : string :=
  match v with
  | VUndefined => primitive_text PUndefined
  | VNull => primitive_text PNull
  | VBool b => primitive_text (PBool b)
  | VNum n => primitive_text (PNum n)
  | VStr s => s
  | VObject _ _ _ _ _ conv =>
      match as_string conv with
      | Gives p => primitive_text p
      | Raises _ _ => EmptyString
      end
  end.

(** [`${v}`]: [ToString] as a template literal applies it.  An object is
    first converted under the hint "string", and the error of a failing
    conversion comes out of the template. *)
Definition template (v : value) : result string :=
  match v with
  | VObject _ _ _ _ _ conv =>
      match as_string conv with
      | Gives p => Returns (primitive_text p)
      | Raises name message => Throws (ErrorObject name message)
      end
  | _ => Returns (ToString v)
  end.

(** [ToPrimitive] under the default hint: a primitive is left alone. *)
Definition ToPrimitive (v : value) : result value :=
  match v with
  | VObject _ _ _ _ _ conv =>
      match as_default conv with
      | Gives p => Returns (of_primitive p)
      | Raises name message => Throws (ErrorObject name message)
      end
  | _ => Returns v
  end.

(** [StringToNumber] on the literals that denote a number of the
    model: surrounding white space is dropped, the empty string is [+0],
    then come the (signed) infinities and the signed decimal integers;
    every other string converts to NaN here.  (Literals with a radix
    prefix, a fraction or an exponent are not read.) *)
Definition is_space (c : ascii) : bool :=
  let n := nat_of_ascii c in
  ((9 <=? n)%nat && (n <=? 13)%nat) || (n =? 32)%nat.

Fixpoint trim_start (s : string) : string :=
  match s with
  | String c rest => if is_space c then trim_start rest else s
  | EmptyString => EmptyString
  end.

Fixpoint trim_end (s : string) : string :=
  match s with
  | String c rest =>
      let rest' := trim_end rest in
      if is_space c && String.eqb rest' EmptyString then EmptyString else String c rest'
  | EmptyString => EmptyString
  end.

Definition digits_value (s : string) : option Z :=
  option_map Z.of_uint (NilZero.uint_of_string s).

Definition StringToNumber (s : string) : number :=
  let t := trim_end (trim_start s) in
  if String.eqb t EmptyString then Int 0
  else if String.eqb t "Infinity" || String.eqb t "+Infinity" then Infinity false
  else if String.eqb t "-Infinity" then Infinity true
  else match t with
       | String "-" rest =>
           match digits_value rest with
           | Some z => if (z =? 0)%Z then NegZero else Int (- z)
           | None => NaN
           end
       | String "+" rest =>
           match digits_value rest with
           | Some z => Int z
           | None => NaN
           end
       | _ =>
           match digits_value t with
           | Some z => Int z
           | None => NaN
           end
       end.

Definition is_object (v : value) : bool :=
  match v with
  | VObject _ _ _ _ _ _ => true
  | _ => false
  end.

(** [ToNumber] of a primitive. *)
Definition ToNumber (v : value) : number :=
  match v with
  | VUndefined => NaN
  | VNull => Int 0
  | VBool true => Int 1
  | VBool false => Int 0
  | VNum n => n
  | VStr s => StringToNumber s
  | VObject _ _ _ _ _ _ => NaN
  end.

(** ** The equality operators *)

(** [Number::equal]: NaN equals nothing, the two zeros are equal. *)
Definition number_eqb (x y : number) : bool :=
  match x, y with
  | NaN, _ | _, NaN => false
  | Infinity s, Infinity t => Bool.eqb s t
  | NegZero, NegZero => true
  | NegZero, Int z | Int z, NegZero => (z =? 0)%Z
  | Int a, Int b => (a =? b)%Z
  | _, _ => false
  end.

(** [a === b]. *)
Definition strict_eq (a b : value) : bool :=
  match a, b with
  | VUndefined, VUndefined => true
  | VNull, VNull => true
  | VBool x, VBool y => Bool.eqb x y
  | VNum x, VNum y => number_eqb x y
  | VStr x, VStr y => String.eqb x y
  | VObject r _ _ _ _ _, VObject r' _ _ _ _ _ => Nat.eqb r r'
  | _, _ => false
  end.

(** [SameValueZero], the comparison of [Array.prototype.includes]: as
    [===] except that NaN is the same value as NaN. *)
Definition SameValueZero (a b : value) : bool :=
  match a, b with
  | VNum NaN, VNum NaN => true
  | _, _ => strict_eq a b
  end.

Definition null_or_undefined_value (v : value) : bool :=
  match v with
  | VUndefined | VNull => true
  | _ => false
  end.

(** [IsLooselyEqual] on two primitives: [null] and [undefined] equal
    each other and nothing else, two strings compare as strings, and
    every other pair compares as numbers. *)
Definition loose_eq_primitive (a b : value) : bool :=
  if null_or_undefined_value a || null_or_undefined_value b
  then null_or_undefined_value a && null_or_undefined_value b
  else match a, b with
       | VStr x, VStr y => String.eqb x y
       | _, _ => number_eqb (ToNumber a) (ToNumber b)
       end.

(** [a == b]: two objects compare by reference; [null] and [undefined]
    are compared without any conversion; otherwise an object operand is
    converted by [ToPrimitive], whose error comes out of the
    comparison, and the primitives are compared. *)
Definition loose_eq (a b : value) : result bool :=
  if is_object a && is_object b then Returns (strict_eq a b)
  else if null_or_undefined_value a || null_or_undefined_value b
  then Returns (null_or_undefined_value a && null_or_undefined_value b)
  else
    pa <- ToPrimitive a ;;
    pb <- ToPrimitive b ;;
    Returns (loose_eq_primitive pa pb).

(** ** Properties *)

Definition indices (n : nat) : list string := map index_key (seq 0 n).

(** The one-character strings a string exposes under its indices. *)
Fixpoint characters (s : string) : list value :=
  match s with
  | EmptyString => []
  | String c rest => VStr (String c EmptyString) :: characters rest
  end.

Definition null_or_undefined_to_object : thrown :=
  TypeError "Cannot convert undefined or null to object".

(** [Object.keys(v)]: the names of the own enumerable properties. *)
Definition Object_keys (v : value) : result (list string) :=
  match v with
  | VUndefined | VNull => Throws null_or_undefined_to_object
  | VBool _ | VNum _ => Returns []
  | VStr s => Returns (indices (String.length s))
  | VObject _ _ own _ _ _ => Returns (map fst own)
  end.

Definition has_key (key : string) (keys : list string) : bool :=
  existsb (String.eqb key) keys.

(** The names [for (const key in v)] visits: the own enumerable
    properties first, then the inherited enumerable ones that no own
    property shadows.  A loop over a number, a boolean, [null] or
    [undefined] visits nothing. *)
Definition for_in (v : value) : list string :=
  match v with
  | VStr s => indices (String.length s)
  | VObject _ _ own inherited _ _ =>
      map fst own
        ++ filter (fun key => negb (has_key key (map fst own))) (map fst inherited)
  | _ => []
  end.

Fixpoint assoc (key : string) (props : list (string * value)) : option value :=
  match props with
  | [] => None
  | (k, v) :: rest => if String.eqb key k then Some v else assoc key rest
  end.

(** The property of an object under a name: an own enumerable one, else
    an inherited enumerable one, else a hidden one. *)
Definition property (own inherited hidden : list (string * value)) (key : string)
  : option value :=
  match assoc key own with
  | Some v => Some v
  | None =>
      match assoc key inherited with
      | Some v => Some v
      | None => assoc key hidden
      end
  end.

(** [key in v]: a TypeError unless [v] is an object. *)
Definition HasProperty (key : string) (v : value) : result bool :=
  match v with
  | VObject _ _ own inherited hidden _ =>
      Returns (match property own inherited hidden key with
               | Some _ => true
               | None => false
               end)
  | _ => Throws (TypeError "Cannot use 'in' operator to search for a key in a primitive")
  end.

(** [v[key]].  A string has its characters and its length; what a
    primitive inherits from its wrapper prototype is left out (the
    assertions never read such a name), so any other read of a
    primitive gives [undefined]. *)
Definition Get (v : value) (key : string) : result value :=
  match v with
  | VUndefined | VNull =>
      Throws (TypeError "Cannot read properties of undefined or null")
  | VBool _ | VNum _ => Returns VUndefined
  | VStr s =>
      if String.eqb key "length" then Returns (VNum (Int (Z.of_nat (String.length s))))
      else match assoc key (combine (indices (String.length s)) (characters s)) with
           | Some c => Returns c
           | None => Returns VUndefined
           end
  | VObject _ _ own inherited hidden _ =>
      match property own inherited hidden key with
      | Some x => Returns x
      | None => Returns VUndefined
      end
  end.

Definition instanceof (v : value) (c : class) : bool :=
  match v, c with
  | VObject _ ClassArray _ _ _ _, ClassArray => true
  | VObject _ ClassNodeList _ _ _ _, ClassNodeList => true
  | VObject _ ClassMap _ _ _ _, ClassMap => true
  | VObject _ ClassSet _ _ _ _, ClassSet => true
  | VObject _ ClassFunction _ _ _ _, ClassFunction => true
  | VObject _ _ _ _ _ _, ClassObject => true
  | _, _ => false
  end.

Definition typeof_string (v : value) : bool :=
  match v with
  | VStr _ => true
  | _ => false
  end.

(** [xs.includes(x)] on an array given by its elements. *)
Definition includes (xs : list value) (x : value) : bool :=
  existsb (fun e => SameValueZero e x) xs.

(** A pattern, as [String.prototype.match] takes it: a RegExp, or a
    string, which is compiled to one.  It is given by how a template
    literal prints it and by its matcher: the strings in which the
    compiled pattern finds a match, or nothing when the pattern is a
    string that is not the source of a regular expression (a RegExp
    always has a matcher). *)
Record pattern : Type := {
  pattern_text : string;
  pattern_matcher : option (string -> bool)
}.

(** [text.match(p)], as a condition: whether a match is found; a
    SyntaxError when the pattern does not compile. *)
Definition String_match (text : string) (p : pattern) : result bool :=
  match pattern_matcher p with
  | Some found_in => Returns (found_in text)
  | None => Throws (SyntaxError ("Invalid regular expression: /" ++ pattern_text p ++ "/"))
  end.

(** The pattern compiles and finds a match in the text. *)
Definition pattern_found_in (p : pattern) (text : string) : bool :=
  match String_match text p with
  | Returns found => found
  | Throws _ => false
  end.

End JS.

Import JS.

(** ** Statements of a [void] function

    A body runs its statements in order; [return] and [throw] cut the
    rest short. *)
Inductive completion : Type :=
| Normal
| Return
| Throw (e : thrown).

Definition then_ (c k : completion) : completion :=
  match c with
  | Normal => k
  | _ => c
  end.

Notation "c ;;; k" := (then_ c k) (at level 62, right associativity).

(** A call used as a statement, and a value computed on the way. *)
Definition statement {A : Type} (r : result A) : completion :=
  match r with
  | Returns _ => Normal
  | Throws e => Throw e
  end.

Definition with_value {A : Type} (r : result A) (k : A -> completion) : completion :=
  match r with
  | Returns a => k a
  | Throws e => Throw e
  end.

(** [if (cond) return] *)
Definition return_if (cond : bool) : completion :=
  if cond then Return else Normal.

Definition call (body : completion) : result unit :=
  match body with
  | Normal | Return => Returns tt
  | Throw e => Throws e
  end.

(** [message || fallback]: the message when it is given and not empty;
    the fallback, a template literal, is evaluated only otherwise. *)
Definition or_else (message : option string) (fallback : result string) : result string :=
  match message with
  | Some m => if String.eqb m EmptyString then fallback else Returns m
  | None => fallback
  end.

(** How a template literal prints an array of values:
    [Array.prototype.join] prints [null] and [undefined] as nothing and
    converts every other element, from left to right. *)
Fixpoint join_values (xs : list value) : result (list string) :=
  match xs with
  | [] => Returns []
  | x :: rest =>
      text <- match x with
              | VUndefined | VNull => Returns EmptyString
              | _ => template x
              end ;;
      texts <- join_values rest ;;
      Returns (text :: texts)
  end.

Definition Array_toString (xs : list value) : result string :=
  texts <- join_values xs ;; Returns (join texts).

(** ** [_deepEqual] *)

Section AssocApply.
Context {B : Type} (f : value -> B).

Fixpoint assoc_apply (key : string) (props : list (string * value)) : option B :=
  match props with
  | [] => None
  | (k, v) :: rest => if String.eqb key k then Some (f v) else assoc_apply key rest
  end.
End AssocApply.

(** The body of the source function over the recursive call [rec]:
<<
  if (obj1 === obj2) return true
  if (Object.keys(obj1).length !== Object.keys(obj2).length) return false
  for (const key in obj1) {
    if (!(key in obj2)) return false
    if (!_deepEqual(obj1[key], obj2[key])) return false
  }
  return true
>> *)
Section DeepEqualBody.
Variable rec : value -> value -> result bool.
Variables obj1 obj2 : value.

Fixpoint deepEqual_loop (keys : list string) : result bool :=
  match keys with
  | [] => Returns true
  | key :: rest =>
      present <- HasProperty key obj2 ;;
      if negb present then Returns false else
      v1 <- Get obj1 key ;;
      v2 <- Get obj2 key ;;
      same <- rec v1 v2 ;;
      if negb same then Returns false else deepEqual_loop rest
  end.

Definition deepEqual_body : result bool :=
  if strict_eq obj1 obj2 then Returns true else
  keys1 <- Object_keys obj1 ;;
  keys2 <- Object_keys obj2 ;;
  if negb (length keys1 =? length keys2)%nat then Returns false else
  deepEqual_loop (for_in obj1).
End DeepEqualBody.

(** The function itself.  The recursion descends into [obj2]: the
    property read [obj2[key]] is done by [assoc_apply], which hands the
    property it finds to the recursive call.  [_deepEqual_unfold] below
    shows that this is the body above. *)
Fixpoint deepEqual_rec (obj2 obj1 : value) {struct obj2} : result bool :=
  if strict_eq obj1 obj2 then Returns true else
  keys1 <- Object_keys obj1 ;;
  keys2 <- Object_keys obj2 ;;
  if negb (length keys1 =? length keys2)%nat then Returns false else
  (fix loop (keys : list string) : result bool :=
     match keys with
     | [] => Returns true
     | key :: rest =>
         present <- HasProperty key obj2 ;;
         if negb present then Returns false else
         v1 <- Get obj1 key ;;
         same <- match obj2 with
                 | VObject _ _ own inherited hidden _ =>
                     let compare := fun v2 => deepEqual_rec v2 v1 in
                     match assoc_apply compare key own with
                     | Some r => r
                     | None =>
                         match assoc_apply compare key inherited with
                         | Some r => r
                         | None =>
                             match assoc_apply compare key hidden with
                             | Some r => r
                             | None => Returns false
                             end
                         end
                     end
                 | _ => Returns false
                 end ;;
         if negb same then Returns false else loop rest
     end) (for_in obj1).

Definition _deepEqual (obj1 obj2 : value) : result bool := deepEqual_rec obj2 obj1.

(** ** The failure primitive and the assertions *)

(** [throw new Error(message)] *)
Definition fail (message : string) : result unit :=
  call (Throw (ErrorObject "Error" message)).

(** [fail(message || `...`)]: the text is worked out, which may throw,
    and then thrown. *)
Definition fail_with (text : result string) : completion :=
  with_value text (fun message => statement (fail message)).

Definition isOk (thing : value) (message : option string) : result unit :=
  call (return_if (truthy thing) ;;;
        fail_with (or_else message
          (t <- template thing ;; Returns ("Expected " ++ t ++ " to be ok")))).

Definition isNotOk (thing : value) (message : option string) : result unit :=
  call (return_if (negb (truthy thing)) ;;;
        fail_with (or_else message
          (t <- template thing ;; Returns ("Expected " ++ t ++ " to be not ok")))).

Definition equal (actual expected : value) (message : option string) : result unit :=
  call (with_value (loose_eq actual expected) return_if ;;;
        fail_with (or_else message
          (a <- template actual ;; e <- template expected ;;
           Returns ("Expected " ++ a ++ " and " ++ e ++ " to be equal")))).

Definition notEqual (actual expected : value) (message : option string) : result unit :=
  call (with_value (loose_eq actual expected) (fun same => return_if (negb same)) ;;;
        fail_with (or_else message
          (a <- template actual ;; e <- template expected ;;
           Returns ("Expected " ++ a ++ " and " ++ e ++ " to be not equal")))).

Definition strictEqual (actual expected : value) (message : option string) : result unit :=
  call (return_if (strict_eq actual expected) ;;;
        fail_with (or_else message
          (a <- template actual ;; e <- template expected ;;
           Returns ("Expected " ++ a ++ " and " ++ e ++ " to be strict equal")))).

Definition notStrictEqual (actual expected : value) (message : option string) : result unit :=
  call (return_if (negb (strict_eq actual expected)) ;;;
        fail_with (or_else message
          (a <- template actual ;; e <- template expected ;;
           Returns ("Expected " ++ a ++ " and " ++ e ++ " to be not strict equal")))).

Definition deepEqual (actual expected : value) (message : option string) : result unit :=
  call (with_value (_deepEqual actual expected) return_if ;;;
        fail_with (or_else message
          (e <- template expected ;; a <- template actual ;;
           Returns ("Expected " ++ e ++ " to be equal " ++ a)))).

Definition notDeepEqual (actual expected : value) (message : option string) : result unit :=
  call (with_value (_deepEqual actual expected) (fun same => return_if (negb same)) ;;;
        fail_with (or_else message
          (e <- template expected ;; a <- template actual ;;
           Returns ("Expected " ++ e ++ " to be equal " ++ a)))).

Definition include (haystack : list value) (needle : value) (message : option string)
  : result unit :=
  call (return_if (includes haystack needle) ;;;
        fail_with (or_else message
          (h <- Array_toString haystack ;; n <- template needle ;;
           Returns ("Expected " ++ h ++ " to include " ++ n)))).

Definition notInclude (haystack : list value) (needle : value) (message : option string)
  : result unit :=
  call (return_if (negb (includes haystack needle)) ;;;
        fail_with (or_else message
          (h <- Array_toString haystack ;; n <- template needle ;;
           Returns ("Expected " ++ h ++ " to not include " ++ n)))).

(** [keys.every(test)], for a test that may throw. *)
Fixpoint every (test : string -> result bool) (keys : list string) : result bool :=
  match keys with
  | [] => Returns true
  | key :: rest =>
      ok <- test key ;;
      if ok then every test rest else Returns false
  end.

Definition includes_key (names : list string) (key : string) : bool :=
  includes (map VStr names) (VStr key).

Definition hasAllKeys (thing : value) (keys : list string) (message : option string)
  : result unit :=
  call (with_value (Object_keys thing) (fun objectKeys =>
        with_value
          (if (length objectKeys =? length keys)%nat
           then every (fun key => Returns (includes_key objectKeys key)) keys
           else Returns false)
          (fun allKeys =>
        return_if allKeys ;;;
        fail_with (or_else message
          (Returns ("Expected " ++ join objectKeys ++ " to include " ++ join keys
                      ++ " and only those keys")))))).

Definition containsAllKeys (thing : value) (keys : list string) (message : option string)
  : result unit :=
  call (with_value
          (every (fun key => names <- Object_keys thing ;; Returns (includes_key names key)) keys)
          (fun allKeys =>
        return_if allKeys ;;;
        fail_with (or_else message
          (names <- Object_keys thing ;;
           Returns ("Expected " ++ join names ++ " to include all the keys: "
                      ++ join keys))))).

(** The function under test is given by what a call of it does. *)
Definition throws (fn : unit -> result unit) (errorLike : pattern) : result unit :=
  call (match fn tt with
        | Returns _ => Normal
        | Throws error =>
            match error with
            | Thrown _ => Return                       (* not an instance of Error *)
            | ErrorObject _ message =>
                with_value (String_match message errorLike) return_if ;;;
                statement (fail ("Expected error message " ++ message ++ " to match "
                                   ++ pattern_text errorLike))
            end
        end ;;;
        statement (fail "Expected function to throw")).

Definition isEmpty (target : value) : result unit :=
  call ((if typeof_string target || instanceof target ClassArray
            || instanceof target ClassNodeList
         then
           with_value (Get target "length") (fun length =>
             return_if (strict_eq length (VNum (Int 0)))) ;;;
           fail_with (t <- template target ;; Returns ("Expected " ++ t ++ " to be empty"))
         else if instanceof target ClassMap || instanceof target ClassSet
         then
           with_value (Get target "size") (fun size =>
             return_if (strict_eq size (VNum (Int 0)))) ;;;
           fail_with (t <- template target ;; Returns ("Expected " ++ t ++ " to be empty"))
         else Normal) ;;;
        fail_with (t <- template target ;;
                   Returns ("Didn't know how to check if " ++ t ++ " is empty"))).

Definition isNotEmpty (target : value) : result unit :=
  call ((if typeof_string target || instanceof target ClassArray
            || instanceof target ClassNodeList
         then
           with_value (Get target "length") (fun length =>
             return_if (negb (strict_eq length (VNum (Int 0))))) ;;;
           fail_with (t <- template target ;; Returns ("Expected " ++ t ++ " to be not empty"))
         else if instanceof target ClassMap || instanceof target ClassSet
         then
           with_value (Get target "size") (fun size =>
             return_if (negb (strict_eq size (VNum (Int 0))))) ;;;
           fail_with (t <- template target ;; Returns ("Expected " ++ t ++ " to be not empty"))
         else Normal) ;;;
        fail_with (t <- template target ;;
                   Returns ("Didn't know how to check if " ++ t ++ " is not empty"))).

(** ** Building values *)

Definition native_code : conversion :=
  {| as_string := Gives (PStr "function () { [native code] }");
     as_default := Gives (PStr "function () { [native code] }") |}.

(** A built-in function: an object without enumerable properties (what
    the built-ins themselves inherit is not listed). *)
Definition builtin (ref : nat) : value := VObject ref ClassFunction [] [] [] native_code.

Fixpoint builtins (ref : nat) (names : list string) : list (string * value) :=
  match names with
  | [] => []
  | name :: rest => (name, builtin ref) :: builtins (S ref) rest
  end.

(** The names every object inherits from [Object.prototype]; none of
    them is enumerable. *)
Definition Object_prototype : list (string * value) :=
  [("constructor", builtin 1); ("hasOwnProperty", builtin 2);
   ("isPrototypeOf", builtin 3); ("propertyIsEnumerable", builtin 4);
   ("toLocaleString", builtin 5); ("toString", builtin 6); ("valueOf", builtin 7);
   ("__defineGetter__", builtin 8); ("__defineSetter__", builtin 9);
   ("__lookupGetter__", builtin 10); ("__lookupSetter__", builtin 11);
   ("__proto__", builtin 12)].


Definition Map_prototype : list (string * value) :=
  builtins 70
    ["constructor"; "clear"; "delete"; "entries"; "forEach"; "get"; "has"; "keys";
     "set"; "values"].

Definition Set_prototype : list (string * value) :=
  builtins 90
    ["constructor"; "add"; "clear"; "delete"; "entries"; "forEach"; "has"; "keys";
     "values"].


Definition cannot_convert : converted :=
  Raises "TypeError" "Cannot convert object to primitive value".

Definition converts_to (text : string) : conversion :=
  {| as_string := Gives (PStr text); as_default := Gives (PStr text) |}.

(** The conversion of an object literal whose members are data (no
    member is a function): the inherited [toString] gives the class tag,
    unless an own member named [toString] stands in its way; then no
    method yields a primitive ([valueOf] gives the object back). *)
Definition literal_conversion (props : list (string * value)) : conversion :=
  if has_key "toString" (map fst props)
  then {| as_string := cannot_convert; as_default := cannot_convert |}
  else converts_to "[object Object]".

(** [{k1: v1, ...}] *)
Definition object_literal (ref : nat) (props : list (string * value)) : value :=
  VObject ref ClassObject props [] Object_prototype (literal_conversion props).



(** [new Map(...)] and [new Set(...)] holding [n] entries. *)
Definition Map_of_size (ref : nat) (n : nat) : value :=
  VObject ref ClassMap [] []
          (("size", VNum (Int (Z.of_nat n))) :: Map_prototype ++ Object_prototype)
          (converts_to "[object Map]").

Definition Set_of_size (ref : nat) (n : nat) : value :=
  VObject ref ClassSet [] []
          (("size", VNum (Int (Z.of_nat n))) :: Set_prototype ++ Object_prototype)
          (converts_to "[object Set]").

(** [Object.create(proto)] for an object literal [proto] whose members
    are data: the new object has no own property and inherits the
    members of [proto], which are enumerable. *)
Definition Object_create (ref : nat) (proto : list (string * value)) : value :=
  VObject ref ClassObject [] proto Object_prototype (literal_conversion proto).

Definition num (z : Z) : value := VNum (Int z).

(** * Properties *)

(** ** The recursion of [_deepEqual] is the source's *)

Lemma assoc_apply_assoc {B : Type} (f : value -> B) key props :
  assoc_apply f key props = option_map f (assoc key props).
Proof.
  induction props as [|[k v] rest IH]; simpl; [reflexivity|].
  destruct (String.eqb key k); [reflexivity | exact IH].
Qed.

Lemma _deepEqual_unfold (obj1 obj2 : value) :
  _deepEqual obj1 obj2 = deepEqual_body _deepEqual obj1 obj2.
Proof.
  unfold _deepEqual, deepEqual_body.
  destruct obj2 as [| | b | n | s | ref cls own inherited hidden conv];
    cbn [deepEqual_rec];
    destruct (strict_eq obj1 _); try reflexivity;
    destruct (Object_keys obj1) as [keys1|e]; cbn [bind]; try reflexivity;
    match goal with
    | |- context [Object_keys ?v] => destruct (Object_keys v) as [keys2|e2]; cbn [bind]
    end; try reflexivity;
    destruct (negb _); try reflexivity;
    induction (for_in obj1) as [|key rest IH]; try reflexivity;
    cbn [deepEqual_loop HasProperty bind]; try reflexivity.
  destruct (property own inherited hidden key) as [x|] eqn:Hprop; cbn [negb];
    [|reflexivity].
  destruct (Get obj1 key) as [v1|e1]; cbn [bind]; [|reflexivity].
  cbn [Get]. rewrite Hprop. cbn [bind].
  rewrite !assoc_apply_assoc. unfold property in Hprop.
  destruct (assoc key own) as [y|]; cbn [option_map].
  - injection Hprop as ->. destruct (deepEqual_rec x v1) as [[|]|]; cbn; auto.
  - destruct (assoc key inherited) as [y|]; cbn [option_map].
    + injection Hprop as ->. destruct (deepEqual_rec x v1) as [[|]|]; cbn; auto.
    + rewrite Hprop. cbn [option_map].
      destruct (deepEqual_rec x v1) as [[|]|]; cbn; auto.
Qed.

(** Induction on values, with the hypothesis available for every
    property of an object, own, inherited or hidden. *)
Section ValueInduction.
Variable P : value -> Prop.
Hypothesis P_undefined : P VUndefined.
Hypothesis P_null : P VNull.
Hypothesis P_bool : forall b, P (VBool b).
Hypothesis P_num : forall n, P (VNum n).
Hypothesis P_str : forall s, P (VStr s).
Hypothesis P_object : forall ref cls own inherited hidden conv,
    Forall (fun p => P (snd p)) own ->
    Forall (fun p => P (snd p)) inherited ->
    Forall (fun p => P (snd p)) hidden ->
    P (VObject ref cls own inherited hidden conv).

Fixpoint value_induction (v : value) : P v :=
  match v with
  | VUndefined => P_undefined
  | VNull => P_null
  | VBool b => P_bool b
  | VNum n => P_num n
  | VStr s => P_str s
  | VObject ref cls own inherited hidden conv =>
      let all := fix all (props : list (string * value))
                   : Forall (fun p => P (snd p)) props :=
                   match props with
                   | [] => Forall_nil _
                   | (k, x) :: rest =>
                       Forall_cons (k, x) (value_induction x) (all rest)
                   end in
      P_object ref cls own inherited hidden conv (all own) (all inherited) (all hidden)
  end.
End ValueInduction.

Lemma assoc_In key props v : assoc key props = Some v -> In (key, v) props.
Proof.
  induction props as [|[k x] rest IH]; simpl; [discriminate|].
  destruct (String.eqb key k) eqn:E.
  - intros [= ->]. apply String.eqb_eq in E. subst. now left.
  - intros H. right. auto.
Qed.

Lemma property_Forall (P : value -> Prop) own inherited hidden key v :
  Forall (fun p => P (snd p)) own ->
  Forall (fun p => P (snd p)) inherited ->
  Forall (fun p => P (snd p)) hidden ->
  property own inherited hidden key = Some v -> P v.
Proof.
  intros Ho Hi Hh. unfold property.
  destruct (assoc key own) as [x|] eqn:E.
  - intros [= <-]. apply assoc_In in E.
    rewrite Forall_forall in Ho. exact (Ho _ E).
  - destruct (assoc key inherited) as [x|] eqn:E'.
    + intros [= <-]. apply assoc_In in E'.
      rewrite Forall_forall in Hi. exact (Hi _ E').
    + intros E''. apply assoc_In in E''.
      rewrite Forall_forall in Hh. exact (Hh _ E'').
Qed.

(** ** What the loop of [_deepEqual] returns *)

Section Loop.
Variable rec : value -> value -> result bool.
Variables obj1 obj2 : value.

(** The condition of step 3 for one key: [obj2] has it, and the two
    members compare equal. *)
Definition member_agrees (key : string) : Prop :=
  HasProperty key obj2 = Returns true /\
  exists v1 v2, Get obj1 key = Returns v1 /\ Get obj2 key = Returns v2 /\
                rec v1 v2 = Returns true.

Lemma deepEqual_loop_true keys :
  deepEqual_loop rec obj1 obj2 keys = Returns true <->
  forall key, In key keys -> member_agrees key.
Proof.
  induction keys as [|key rest IH]; cbn [deepEqual_loop].
  - split; [intros _ key [] | reflexivity].
  - split.
    + intros H.
      destruct (HasProperty key obj2) as [[|]|] eqn:Hin; cbn in H; try discriminate.
      destruct (Get obj1 key) as [v1|] eqn:G1; cbn in H; try discriminate.
      destruct (Get obj2 key) as [v2|] eqn:G2; cbn in H; try discriminate.
      destruct (rec v1 v2) as [[|]|] eqn:R; cbn in H; try discriminate.
      intros k [<-|Hk].
      * split; [exact Hin|]. exists v1, v2. auto.
      * apply IH; assumption.
    + intros H.
      destruct (H key (or_introl eq_refl)) as (Hin & v1 & v2 & G1 & G2 & R).
      rewrite Hin, G1, G2. cbn. rewrite R. cbn.
      apply IH. intros k Hk. apply H. now right.
Qed.
End Loop.

(** ** C1: what [_deepEqual] returns *)

(** Steps 1 to 3 of the algorithm, as a condition on the two values:
    they are the same reference, or they have as many own enumerable
    keys and every key that [for...in] visits on [a] (an enumerable
    one, own or inherited) is in [b] with members that compare equal. *)
Definition structurally_equal (a b : value) : Prop :=
  strict_eq a b = true \/
  exists keys1 keys2,
    Object_keys a = Returns keys1 /\ Object_keys b = Returns keys2 /\
    length keys1 = length keys2 /\
    forall key, In key (for_in a) -> member_agrees _deepEqual a b key.

(** The condition as the specification words it, over the own
    enumerable keys of [a] alone. *)
Definition structurally_equal_on_own_keys (a b : value) : Prop :=
  strict_eq a b = true \/
  exists keys1 keys2,
    Object_keys a = Returns keys1 /\ Object_keys b = Returns keys2 /\
    length keys1 = length keys2 /\
    forall key, In key keys1 -> member_agrees _deepEqual a b key.

(** The two ways in which a comparison does not succeed. *)
Definition false_or_TypeError (r : result bool) : Prop :=
  r = Returns false \/ exists message, r = Throws (TypeError message).

Lemma _deepEqual_true_iff (a b : value) :
  _deepEqual a b = Returns true <-> structurally_equal a b.
Proof.
  rewrite _deepEqual_unfold. unfold deepEqual_body, structurally_equal.
  destruct (strict_eq a b) eqn:Hsame.
  - split; auto.
  - destruct (Object_keys a) as [keys1|e1] eqn:K1; cbn [bind].
    + destruct (Object_keys b) as [keys2|e2] eqn:K2; cbn [bind].
      * destruct (length keys1 =? length keys2)%nat eqn:Hlen; cbn [negb].
        -- apply Nat.eqb_eq in Hlen. rewrite deepEqual_loop_true. split.
           ++ intros H. right. exists keys1, keys2. auto.
           ++ intros [H|(k1 & k2 & _ & _ & _ & H)]; [discriminate | exact H].
        -- apply Nat.eqb_neq in Hlen. split; [discriminate|].
           intros [H|(k1 & k2 & [= <-] & [= <-] & Hl & _)]; [discriminate | contradiction].
      * split; [discriminate|].
        intros [H|(k1 & k2 & _ & H & _)]; discriminate.
    + split; [discriminate|].
      intros [H|(k1 & k2 & H & _)]; discriminate.
Qed.

Lemma deepEqual_loop_outcome rec obj1 obj2 keys :
  (forall key v1 v2, HasProperty key obj2 = Returns true ->
                     Get obj2 key = Returns v2 ->
                     rec v1 v2 = Returns true \/ false_or_TypeError (rec v1 v2)) ->
  deepEqual_loop rec obj1 obj2 keys = Returns true \/
  false_or_TypeError (deepEqual_loop rec obj1 obj2 keys).
Proof.
  intros Hrec. unfold false_or_TypeError.
  induction keys as [|key rest IH]; cbn [deepEqual_loop]; [now left|].
  destruct (HasProperty key obj2) as [[|]|e] eqn:Hin; cbn [bind negb].
  - destruct (Get obj1 key) as [v1|e1] eqn:G1; cbn [bind].
    + destruct (Get obj2 key) as [v2|e2] eqn:G2; cbn [bind].
      * destruct (Hrec key v1 v2 Hin G2) as [R|[R|[m R]]]; rewrite R; cbn [bind negb];
          [ exact IH | right; left; reflexivity | right; right; eexists; reflexivity ].
      * right. right. destruct obj2; cbn in G2; try discriminate;
          try (injection G2 as <-; eexists; reflexivity).
        destruct (property _ _ _ _); discriminate.
    + right. right. destruct obj1; cbn in G1; try discriminate;
        try (injection G1 as <-; eexists; reflexivity).
      * destruct (String.eqb key "length"); [discriminate|].
        destruct (assoc key _); discriminate.
      * destruct (property _ _ _ _); discriminate.
  - right. now left.
  - right. right. destruct obj2; cbn in Hin; try discriminate;
      injection Hin as <-; eexists; reflexivity.
Qed.

Lemma _deepEqual_outcome (b a : value) :
  _deepEqual a b = Returns true \/ false_or_TypeError (_deepEqual a b).
Proof.
  revert a. induction b as [| | x | n | s | ref cls own inherited hidden conv
                              Hown Hinherited Hhidden]
    using value_induction; intros a;
    rewrite _deepEqual_unfold; unfold deepEqual_body;
    (destruct (strict_eq a _); [now left|]);
    (destruct (Object_keys a) as [keys1|e1] eqn:K1; cbn [bind];
      [| right; right; destruct a; inversion K1; eexists; reflexivity]);
    cbn [Object_keys bind];
    try (right; right; eexists; reflexivity);
    (destruct (negb _); [right; now left|]);
    apply deepEqual_loop_outcome; intros key v1 v2 Hin G2;
    try discriminate.
  cbn in Hin, G2.
  destruct (property own inherited hidden key) as [x|] eqn:Hp; [|discriminate].
  injection G2 as <-.
  exact (property_Forall (fun v => forall a, _ a v = Returns true \/ false_or_TypeError (_ a v))
           own inherited hidden key x Hown Hinherited Hhidden Hp v1).
Qed.

(** The property as the specification words it: [true] exactly under
    the condition over the own keys, and [false] otherwise. *)
Definition returns_true_iff_else_false (a b : value) : Prop :=
  (_deepEqual a b = Returns true <-> structurally_equal_on_own_keys a b) /\
  (~ structurally_equal_on_own_keys a b -> _deepEqual a b = Returns false).

Definition record_ab : value := object_literal 100 [("name", VStr "ab")].
Definition record_cd : value := object_literal 101 [("name", VStr "cd")].

(** C1, counterexample: comparing [{name: "ab"}] with [{name: "cd"}]
    reaches [_deepEqual("ab", "cd")], where ["0" in "cd"] raises a
    TypeError; the call returns neither [true] nor [false]. *)
Lemma deepEqual_not_false_counterexample :
  ~ returns_true_iff_else_false record_ab record_cd.
Proof.
  intros [Hiff Helse].
  assert (Hthrows : exists e, _deepEqual record_ab record_cd = Throws e)
    by (eexists; vm_compute; reflexivity).
  destruct Hthrows as [e He].
  assert (Hnot : ~ structurally_equal_on_own_keys record_ab record_cd).
  { intros H. apply Hiff in H. rewrite He in H. discriminate. }
  specialize (Helse Hnot). rewrite He in Helse. discriminate.
Qed.

(** The loop is [for...in], which also visits the enumerable keys that
    [a] inherits: [Object.create({x: 1})] and [{}] both have no own
    key, so the condition over own keys holds, and yet the comparison
    is [false], because ["x" in {}] does not hold. *)
Lemma deepEqual_inherited_key :
  structurally_equal_on_own_keys (Object_create 110 [("x", num 1)]) (object_literal 111 []) /\
  _deepEqual (Object_create 110 [("x", num 1)]) (object_literal 111 []) = Returns false.
Proof.
  split; [|reflexivity]. right. exists [], [].
  split; [reflexivity|]. split; [reflexivity|]. split; [reflexivity|]. intros k [].
Qed.

(** C1 (amended): on values without reference cycles, [_deepEqual a b]
    returns [true] if and only if [a] and [b] are the same reference,
    or they have equally many own enumerable keys and for each key [k]
    that [for...in] visits on [a] (its enumerable keys, own and
    inherited), [b] has [k] and [_deepEqual(a[k], b[k])] is [true];
    otherwise it returns [false] or throws the TypeError the host
    raised on the way.  In particular it returns [true] on the same
    reference, and [false] on two distinct values whose key counts
    differ. *)
Theorem deepEqual_characterisation (a b : value) :
  (_deepEqual a b = Returns true <-> structurally_equal a b) /\
  (~ structurally_equal a b -> false_or_TypeError (_deepEqual a b)) /\
  (strict_eq a b = true -> _deepEqual a b = Returns true) /\
  (forall keys1 keys2,
      strict_eq a b = false ->
      Object_keys a = Returns keys1 -> Object_keys b = Returns keys2 ->
      length keys1 <> length keys2 ->
      _deepEqual a b = Returns false).
Proof.
  split; [apply _deepEqual_true_iff|]. split; [|split].
  - intros Hnot. destruct (_deepEqual_outcome b a) as [H|H]; [|exact H].
    apply _deepEqual_true_iff in H. contradiction.
  - intros H. apply _deepEqual_true_iff. now left.
  - intros keys1 keys2 Hsame K1 K2 Hlen.
    rewrite _deepEqual_unfold. unfold deepEqual_body.
    rewrite Hsame, K1, K2. cbn [bind].
    apply Nat.eqb_neq in Hlen. rewrite Hlen. reflexivity.
Qed.

Definition record_a : value := object_literal 102 [("a", num 1)].
Definition record_a_b : value := object_literal 103 [("a", num 1); ("b", num 2)].

Lemma deepEqual_characterisation_witness :
  (strict_eq record_a record_a = true /\ _deepEqual record_a record_a = Returns true) /\
  (strict_eq record_a record_a_b = false /\
   Object_keys record_a = Returns ["a"] /\ Object_keys record_a_b = Returns ["a"; "b"] /\
   _deepEqual record_a record_a_b = Returns false) /\
  (~ structurally_equal (Object_create 110 [("x", num 1)]) (object_literal 111 []) /\
   false_or_TypeError (_deepEqual (Object_create 110 [("x", num 1)]) (object_literal 111 []))).
Proof.
  split; [split | split; [split; [|split; [|split]]|]].
  - reflexivity.
  - apply (deepEqual_characterisation record_a record_a). reflexivity.
  - reflexivity.
  - reflexivity.
  - reflexivity.
  - apply (proj2 (proj2 (proj2 (deepEqual_characterisation record_a record_a_b)))
             ["a"] ["a"; "b"]).
    + reflexivity.
    + reflexivity.
    + reflexivity.
    + simpl. lia.
  - assert (Hnot : ~ structurally_equal (Object_create 110 [("x", num 1)])
                     (object_literal 111 [])).
    { intros H.
      apply (proj1 (deepEqual_characterisation _ _)) in H. discriminate. }
    split; [exact Hnot|].
    exact (proj1 (proj2 (deepEqual_characterisation _ _)) Hnot).
Defined.

(** ** Passing and failing *)

Definition passes (r : result unit) : Prop := r = Returns tt.
Definition fails (r : result unit) : Prop := exists e, r = Throws e.
Definition fails_with (message : string) (r : result unit) : Prop :=
  r = Throws (ErrorObject "Error" message).

Lemma fail_with_throws (text : result string) : exists e, fail_with text = Throw e.
Proof. destruct text as [t|e]; eexists; reflexivity. Qed.

(** An assertion of the shape [if (cond) return; fail(text)]. *)
Lemma guarded_passes cond text :
  passes (call (return_if cond ;;; fail_with text)) <-> cond = true.
Proof.
  unfold passes. destruct (fail_with_throws text) as [e He].
  destruct cond; cbn; [split; auto|]. rewrite He. cbn. split; discriminate.
Qed.

Lemma guarded_fails cond text :
  fails (call (return_if cond ;;; fail_with text)) <-> cond = false.
Proof.
  unfold fails. destruct (fail_with_throws text) as [e He].
  destruct cond; cbn.
  - split; [intros [e' H]; discriminate | discriminate].
  - rewrite He. cbn. split; [auto | intros _; eexists; reflexivity].
Qed.

(** The same with a guard that is itself a call: it passes when the
    guard returns [true], and fails when the guard returns [false] or
    throws. *)
Lemma computed_guard_passes (guard : result bool) text :
  passes (call (with_value guard return_if ;;; fail_with text)) <-> guard = Returns true.
Proof.
  unfold passes. destruct (fail_with_throws text) as [e He].
  destruct guard as [[|]|e']; cbn; try rewrite He; cbn; split; auto; discriminate.
Qed.

Lemma computed_guard_fails (guard : result bool) text :
  fails (call (with_value guard return_if ;;; fail_with text)) <-> guard <> Returns true.
Proof.
  unfold fails. destruct (fail_with_throws text) as [e He].
  destruct guard as [[|]|e']; cbn; try rewrite He; cbn; split;
    try discriminate; try (intros _; eexists; reflexivity).
  - intros [e0 H]. discriminate.
  - intros H. now contradiction H.
Qed.

Lemma negated_guard_passes (guard : result bool) text :
  passes (call (with_value guard (fun same => return_if (negb same)) ;;; fail_with text))
  <-> guard = Returns false.
Proof.
  unfold passes. destruct (fail_with_throws text) as [e He].
  destruct guard as [[|]|e']; cbn; try rewrite He; cbn; split; auto; discriminate.
Qed.

Lemma negated_guard_fails (guard : result bool) text :
  fails (call (with_value guard (fun same => return_if (negb same)) ;;; fail_with text))
  <-> guard <> Returns false.
Proof.
  unfold fails. destruct (fail_with_throws text) as [e He].
  destruct guard as [[|]|e']; cbn; try rewrite He; cbn; split;
    try discriminate; try (intros _; eexists; reflexivity).
  - intros [e0 H]. discriminate.
  - intros H. now contradiction H.
Qed.

(** A falsy value is a primitive, and a primitive always prints. *)
Lemma template_primitive (x : value) : is_object x = false -> template x = Returns (ToString x).
Proof. destruct x; try discriminate; reflexivity. Qed.

Lemma falsy_primitive (x : value) : truthy x = false -> is_object x = false.
Proof. destruct x; try discriminate; reflexivity. Qed.

(** ** C5: [fail] *)

(** C5: [fail(message)] never returns: for every message, the empty one
    included, it throws an [Error] whose message is exactly the one
    given; it puts no default in its place. *)
Theorem fail_throws_message (message : string) :
  fail message = Throws (ErrorObject "Error" message) /\
  ~ passes (fail message).
Proof.
  split; [reflexivity | discriminate].
Qed.

(** ** C7: [isOk] *)

(** C7: [isOk(x, m)] passes for a truthy [x] whatever [m] is; for a
    falsy [x] it fails, with the default text around the printed [x]
    when [m] is omitted or empty, and with exactly [m] otherwise. *)
Theorem isOk_contract (x : value) (m : option string) :
  (truthy x = true -> passes (isOk x m)) /\
  (truthy x = false ->
     fails (isOk x m) /\
     fails_with ("Expected " ++ ToString x ++ " to be ok") (isOk x None) /\
     fails_with ("Expected " ++ ToString x ++ " to be ok") (isOk x (Some EmptyString)) /\
     forall text, text <> EmptyString -> fails_with text (isOk x (Some text))).
Proof.
  split.
  - intros H. unfold isOk. now apply guarded_passes.
  - intros H. split; [unfold isOk; now apply guarded_fails|].
    pose proof (template_primitive x (falsy_primitive x H)) as Ht.
    unfold isOk, fails_with. rewrite H. cbn [return_if then_ or_else String.eqb].
    rewrite Ht. split; [reflexivity|]. split; [reflexivity|].
    intros text Htext. apply String.eqb_neq in Htext. rewrite Htext. reflexivity.
Qed.

Lemma isOk_contract_witness :
  (truthy (VStr "x") = true /\ passes (isOk (VStr "x") None)) /\
  (truthy (num 0) = false /\ fails_with "Expected 0 to be ok" (isOk (num 0) None)) /\
  ("zero" <> EmptyString /\ fails_with "zero" (isOk (VNum NegZero) (Some "zero"))).
Proof.
  split; [|split]; split.
  - reflexivity.
  - apply (isOk_contract (VStr "x") None). reflexivity.
  - reflexivity.
  - exact (proj1 (proj2 (proj2 (isOk_contract (num 0) None) eq_refl))).
  - discriminate.
  - apply (proj2 (proj2 (proj2 (proj2 (isOk_contract (VNum NegZero) None) eq_refl)))).
    discriminate.
Defined.

(** ** C2: [throws] *)

(** A string free of pattern syntax, found wherever it occurs. *)
Fixpoint occurs_in (needle text : string) : bool :=
  String.prefix needle text ||
  match text with
  | EmptyString => false
  | String _ rest => occurs_in needle rest
  end.

Definition literal_pattern (s : string) : pattern :=
  {| pattern_text := s; pattern_matcher := Some (occurs_in s) |}.

(** The RegExp [/.*/], found in every string. *)
Definition any_pattern : pattern :=
  {| pattern_text := "/.*/"; pattern_matcher := Some (fun _ => true) |}.

(** A string that is not the source of a regular expression, such as
    ["boom("] with its unterminated group. *)
Definition invalid_pattern (source : string) : pattern :=
  {| pattern_text := source; pattern_matcher := None |}.

(** C2, counterexample: with the pattern ["boom("], which does not
    compile, and a function that throws [Error("boom")], the message
    does not match the pattern, yet [throws] does not fail with the text
    that reports the mismatch: the SyntaxError raised by [match] leaves
    the [catch] block as it is. *)
Lemma throws_invalid_pattern_counterexample :
  pattern_found_in (invalid_pattern "boom(") "boom" = false /\
  ~ passes (throws (fun _ => fail "boom") (invalid_pattern "boom(")) /\
  ~ fails_with "Expected error message boom to match boom("
      (throws (fun _ => fail "boom") (invalid_pattern "boom(")) /\
  exists text, throws (fun _ => fail "boom") (invalid_pattern "boom(")
               = Throws (SyntaxError text).
Proof.
  split; [reflexivity|]. split; [discriminate|]. split; [discriminate|].
  eexists. reflexivity.
Qed.

(** C2 (amended): [throws(fn, pattern)] calls [fn].  When [fn] returns,
    it fails with "Expected function to throw"; when [fn] throws
    something that is no [Error], it passes; when [fn] throws an [Error]
    in whose message the pattern finds a match, it passes; when the
    pattern finds none, it fails with a text that names the message and
    the pattern; and when the pattern is a string that does not compile
    to a regular expression, the SyntaxError of the match comes out of
    [throws]. *)
Theorem throws_contract (fn : unit -> result unit) (errorLike : pattern) :
  (forall r, fn tt = Returns r ->
     fails_with "Expected function to throw" (throws fn errorLike)) /\
  (forall e, fn tt = Throws e -> instanceof_Error e = false ->
     passes (throws fn errorLike)) /\
  (forall name message, fn tt = Throws (ErrorObject name message) ->
     String_match message errorLike = Returns true ->
     passes (throws fn errorLike)) /\
  (forall name message, fn tt = Throws (ErrorObject name message) ->
     String_match message errorLike = Returns false ->
     fails_with ("Expected error message " ++ message ++ " to match "
                   ++ pattern_text errorLike)
                (throws fn errorLike)) /\
  (forall name message e, fn tt = Throws (ErrorObject name message) ->
     String_match message errorLike = Throws e ->
     throws fn errorLike = Throws e /\
     exists text, e = SyntaxError text).
Proof.
  unfold throws, passes, fails_with. repeat apply conj.
  - intros r ->. reflexivity.
  - intros e -> He. destruct e; [discriminate | reflexivity].
  - intros name message -> ->. reflexivity.
  - intros name message -> ->. reflexivity.
  - intros name message e -> H. rewrite H. split; [reflexivity|].
    unfold String_match in H. destruct (pattern_matcher errorLike); [discriminate|].
    injection H as <-. eexists. reflexivity.
Qed.

Lemma throws_contract_witness :
  passes (throws (fun _ => fail "boom") (literal_pattern "boom")) /\
  fails_with "Expected error message boom to match nope"
             (throws (fun _ => fail "boom") (literal_pattern "nope")) /\
  fails_with "Expected function to throw" (throws (fun _ => Returns tt) any_pattern) /\
  passes (throws (fun _ => Throws (Thrown (VStr "boom"))) (literal_pattern "nope")) /\
  exists text, throws (fun _ => fail "boom") (invalid_pattern "boom(")
               = Throws (SyntaxError text).
Proof.
  split; [|split; [|split; [|split]]].
  - apply (proj1 (proj2 (proj2 (throws_contract _ (literal_pattern "boom")))) "Error" "boom");
      reflexivity.
  - apply (proj1 (proj2 (proj2 (proj2 (throws_contract _ (literal_pattern "nope")))))
             "Error" "boom");
      reflexivity.
  - apply (proj1 (throws_contract (fun _ => Returns tt) any_pattern) tt). reflexivity.
  - apply (proj1 (proj2 (throws_contract _ (literal_pattern "nope"))) (Thrown (VStr "boom")));
      reflexivity.
  - destruct (proj2 (proj2 (proj2 (proj2
               (throws_contract (fun _ => fail "boom") (invalid_pattern "boom(")))))
               "Error" "boom" _ eq_refl eq_refl) as [H _].
    eexists. exact H.
Defined.

(** ** C4: [isEmpty] *)

Definition has_length (target : value) : bool :=
  typeof_string target || instanceof target ClassArray || instanceof target ClassNodeList.

Definition has_size (target : value) : bool :=
  instanceof target ClassMap || instanceof target ClassSet.




Lemma Get_recognised target name :
  has_length target || has_size target = true -> exists n, Get target name = Returns n.
Proof.
  destruct target as [| | b | n | s | ref cls own inherited hidden conv];
    try discriminate; intros _; cbn.
  - destruct (String.eqb name "length"); [eexists; reflexivity|].
    destruct (assoc name _); eexists; reflexivity.
  - destruct (property own inherited hidden name); eexists; reflexivity.
Qed.








Definition record_toString : value := object_literal 400 [("toString", num 1)].


(** ** C3: an assertion and its negation *)

Definition recognised_shape (target : value) : bool :=
  has_length target || has_size target.

Definition empty_record : value := object_literal 300 [].

(** C3, counterexample: on [{}], a target of no recognised shape,
    [isEmpty] fails and [isNotEmpty] does not pass: each ends in its
    own "Didn't know how to check" failure. *)
Lemma isNotEmpty_unrecognised_counterexample :
  ~ (passes (isNotEmpty empty_record) <-> fails (isEmpty empty_record)).
Proof.
  intros [_ H].
  assert (Hfails : fails (isEmpty empty_record)) by (eexists; reflexivity).
  specialize (H Hfails). discriminate.
Qed.

(** The structural pair goes wrong in the same way when the comparison
    itself throws: then both assertions fail. *)
Lemma notDeepEqual_throwing_pair :
  fails (deepEqual record_ab record_cd None) /\
  fails (notDeepEqual record_ab record_cd None).
Proof.
  split; eexists; vm_compute; reflexivity.
Qed.

(** So does the loose pair when [==] throws: [{toString: 1} == "x"]
    raises a TypeError, because the object cannot be converted. *)
Lemma notEqual_throwing_pair :
  fails (equal record_toString (VStr "x") None) /\
  fails (notEqual record_toString (VStr "x") None).
Proof.
  split; eexists; vm_compute; reflexivity.
Qed.

Lemma isNotEmpty_recognised target :
  recognised_shape target = true ->
  (passes (isNotEmpty target) <-> fails (isEmpty target)).
Proof.
  unfold recognised_shape. intros Hshape.
  destruct (fail_with_throws (t <- template target ;;
                              Returns ("Expected " ++ t ++ " to be empty"))) as [e1 H1].
  destruct (fail_with_throws (t <- template target ;;
                              Returns ("Expected " ++ t ++ " to be not empty"))) as [e2 H2].
  destruct (has_length target) eqn:Hlen.
  - destruct (Get_recognised target "length") as [n Hn]; [now rewrite Hlen|].
    unfold isEmpty, isNotEmpty, passes, fails. fold (has_length target).
    rewrite Hlen, Hn, H1, H2. cbn [with_value].
    destruct (strict_eq n (VNum (Int 0))); cbn; split; try discriminate; auto.
    + intros [e H]. discriminate.
    + intros _. eexists. reflexivity.
  - cbn in Hshape.
    destruct (Get_recognised target "size") as [n Hn];
      [rewrite Hshape; apply orb_true_r|].
    unfold isEmpty, isNotEmpty, passes, fails.
    fold (has_length target). fold (has_size target).
    rewrite Hlen, Hshape, Hn, H1, H2. cbn [with_value].
    destruct (strict_eq n (VNum (Int 0))); cbn; split; try discriminate; auto.
    + intros [e H]. discriminate.
    + intros _. eexists. reflexivity.
Qed.

Lemma isEmpty_unrecognised target :
  recognised_shape target = false -> fails (isNotEmpty target) /\ fails (isEmpty target).
Proof.
  intros Hshape. apply orb_false_iff in Hshape as [Hlen Hsize].
  destruct (fail_with_throws (t <- template target ;;
      Returns ("Didn't know how to check if " ++ t ++ " is empty"))) as [e1 H1].
  destruct (fail_with_throws (t <- template target ;;
      Returns ("Didn't know how to check if " ++ t ++ " is not empty"))) as [e2 H2].
  unfold isNotEmpty, isEmpty, fails.
  fold (has_length target). fold (has_size target). rewrite Hlen, Hsize, H1, H2.
  split; eexists; reflexivity.
Qed.

(** C3 (amended): [notStrictEqual] passes iff [strictEqual] fails and
    [isNotOk] passes iff [isOk] fails, for all arguments; [notEqual]
    passes iff [equal] fails whenever [==] returns, and both fail when
    it throws (an object operand that cannot be converted);
    [notDeepEqual] passes iff [deepEqual] fails whenever the structural
    comparison returns, and both fail when it throws; [isNotEmpty]
    passes iff [isEmpty] fails on every target of a recognised shape
    (string, array, NodeList, Map, Set), and both fail on a target of
    any other shape. *)
Theorem negated_assertions :
  (forall a b m same, loose_eq a b = Returns same ->
     (passes (notEqual a b m) <-> fails (equal a b m))) /\
  (forall a b m e, loose_eq a b = Throws e ->
     fails (notEqual a b m) /\ fails (equal a b m)) /\
  (forall a b m, passes (notStrictEqual a b m) <-> fails (strictEqual a b m)) /\
  (forall x m, passes (isNotOk x m) <-> fails (isOk x m)) /\
  (forall a b m same, _deepEqual a b = Returns same ->
     (passes (notDeepEqual a b m) <-> fails (deepEqual a b m))) /\
  (forall a b m e, _deepEqual a b = Throws e ->
     fails (notDeepEqual a b m) /\ fails (deepEqual a b m)) /\
  (forall t, recognised_shape t = true ->
     (passes (isNotEmpty t) <-> fails (isEmpty t))) /\
  (forall t, recognised_shape t = false ->
     fails (isNotEmpty t) /\ fails (isEmpty t)).
Proof.
  repeat apply conj.
  - intros a b m same H. unfold notEqual, equal.
    rewrite negated_guard_passes, computed_guard_fails, H.
    destruct same; split; congruence.
  - intros a b m e H. unfold notEqual, equal.
    rewrite negated_guard_fails, computed_guard_fails, H. split; discriminate.
  - intros a b m. unfold notStrictEqual, strictEqual.
    rewrite guarded_passes, guarded_fails. apply negb_true_iff.
  - intros x m. unfold isNotOk, isOk.
    rewrite guarded_passes, guarded_fails. apply negb_true_iff.
  - intros a b m same H. unfold notDeepEqual, deepEqual.
    rewrite negated_guard_passes, computed_guard_fails, H.
    destruct same; split; congruence.
  - intros a b m e H. unfold notDeepEqual, deepEqual.
    rewrite negated_guard_fails, computed_guard_fails, H. split; discriminate.
  - exact isNotEmpty_recognised.
  - exact isEmpty_unrecognised.
Qed.

Lemma negated_assertions_witness :
  (_deepEqual record_a record_a_b = Returns false /\
   passes (notDeepEqual record_a record_a_b None) /\
   fails (deepEqual record_a record_a_b None)) /\
  (loose_eq (num 1) (VStr "2") = Returns false /\
   passes (notEqual (num 1) (VStr "2") None) /\ fails (equal (num 1) (VStr "2") None)) /\
  ((exists text, loose_eq record_toString (VStr "x") = Throws (TypeError text)) /\
   fails (notEqual record_toString (VStr "x") None) /\
   fails (equal record_toString (VStr "x") None)) /\
  (recognised_shape (VStr "x") = true /\
   passes (isNotEmpty (VStr "x")) /\ fails (isEmpty (VStr "x"))) /\
  (recognised_shape empty_record = false /\
   fails (isNotEmpty empty_record) /\ fails (isEmpty empty_record)).
Proof.
  destruct negated_assertions
    as (Hloose & Hthrow & _ & _ & Hdeep & _ & Hshape & Hother).
  split; [|split; [|split; [|split]]].
  - assert (H : _deepEqual record_a record_a_b = Returns false) by reflexivity.
    split; [exact H|].
    assert (Hpass : passes (notDeepEqual record_a record_a_b None)) by reflexivity.
    split; [exact Hpass|]. exact (proj1 (Hdeep _ _ None _ H) Hpass).
  - assert (H : loose_eq (num 1) (VStr "2") = Returns false) by reflexivity.
    split; [exact H|].
    assert (Hpass : passes (notEqual (num 1) (VStr "2") None)) by reflexivity.
    split; [exact Hpass|]. exact (proj1 (Hloose _ _ None _ H) Hpass).
  - assert (H : loose_eq record_toString (VStr "x")
                = Throws (TypeError "Cannot convert object to primitive value"))
      by reflexivity.
    split; [eexists; exact H|]. exact (Hthrow _ _ None _ H).
  - assert (H : recognised_shape (VStr "x") = true) by reflexivity.
    split; [exact H|].
    assert (Hpass : passes (isNotEmpty (VStr "x"))) by reflexivity.
    split; [exact Hpass|]. exact (proj1 (Hshape _ H) Hpass).
  - assert (H : recognised_shape empty_record = false) by reflexivity.
    split; [exact H|]. exact (Hother _ H).
Defined.

(** ** C9: [include] and [notInclude] *)

(** C9: [include(haystack, needle, m)] passes iff some element of the
    haystack is the same value as the needle under SameValueZero, and
    [notInclude] passes iff none is.  Nothing is coerced: a haystack
    holding the string "1" does not include the number 1, although
    [equal(1, "1", m)] passes. *)
Theorem include_SameValueZero (haystack : list value) (needle : value) (m : option string) :
  (passes (include haystack needle m) <->
     exists e, In e haystack /\ SameValueZero e needle = true) /\
  (passes (notInclude haystack needle m) <->
     ~ exists e, In e haystack /\ SameValueZero e needle = true) /\
  fails (include [VStr "1"] (num 1) m) /\
  passes (notInclude [VStr "1"] (num 1) m) /\
  passes (equal (num 1) (VStr "1") m).
Proof.
  unfold include, notInclude. rewrite !guarded_passes, negb_true_iff.
  unfold includes. split; [apply existsb_exists|]. split.
  - rewrite <- existsb_exists. symmetry. apply not_true_iff_false.
  - split; [|split].
    + apply guarded_fails. reflexivity.
    + reflexivity.
    + unfold equal. apply computed_guard_passes. reflexivity.
Qed.

(** ** C10: [containsAllKeys] without keys *)

(** C10: with an empty key list [containsAllKeys] passes for every
    [thing]: [every] over no keys is [true], so the keys of [thing] are
    not even read. *)
Theorem containsAllKeys_no_keys (thing : value) (m : option string) :
  passes (containsAllKeys thing [] m) /\
  passes (containsAllKeys (object_literal 0 []) [] m).
Proof.
  split; reflexivity.
Qed.

(** ** C6: [hasAllKeys] *)

Lemma every_pure (test : string -> bool) keys :
  every (fun key => Returns (test key)) keys = Returns (forallb test keys).
Proof.
  induction keys as [|key rest IH]; cbn; [reflexivity|].
  destruct (test key); [exact IH | reflexivity].
Qed.

Lemma includes_key_In names key : includes_key names key = true <-> In key names.
Proof.
  unfold includes_key, includes. rewrite existsb_exists. split.
  - intros (e & He & Hsame). apply in_map_iff in He as (k & <- & Hk).
    cbn in Hsame. apply String.eqb_eq in Hsame. now subst.
  - intros H. exists (VStr key). split; [now apply in_map|].
    cbn. apply String.eqb_refl.
Qed.

(** What the code checks: as many keys as the object has, each of them
    a key of the object. *)
Lemma hasAllKeys_passes thing keys m objectKeys :
  Object_keys thing = Returns objectKeys ->
  (passes (hasAllKeys thing keys m) <->
   length objectKeys = length keys /\ incl keys objectKeys).
Proof.
  intros Hkeys. unfold hasAllKeys. rewrite Hkeys. cbn [with_value].
  rewrite every_pure.
  destruct (length objectKeys =? length keys)%nat eqn:Hlen; cbn [with_value].
  - apply Nat.eqb_eq in Hlen. rewrite guarded_passes.
    destruct (forallb (includes_key objectKeys) keys) eqn:Hall.
    + split; [|reflexivity]. intros _. split; [exact Hlen|].
      rewrite forallb_forall in Hall. intros k Hk.
      apply includes_key_In. auto.
    + split; [discriminate|]. intros [_ Hincl].
      assert (forallb (includes_key objectKeys) keys = true); [|congruence].
      apply forallb_forall. intros k Hk. apply includes_key_In. auto.
  - apply Nat.eqb_neq in Hlen. rewrite guarded_passes.
    split; [discriminate|]. intros [H _]. contradiction.
Qed.

(** On a key list without repetitions the check is equality of the two
    key sets. *)
Lemma hasAllKeys_distinct_keys thing keys m objectKeys :
  Object_keys thing = Returns objectKeys ->
  NoDup objectKeys -> NoDup keys ->
  (passes (hasAllKeys thing keys m) <->
   length objectKeys = length keys /\ forall k, In k keys <-> In k objectKeys).
Proof.
  intros Hkeys Hobj Hnodup. rewrite (hasAllKeys_passes _ _ _ _ Hkeys). split.
  - intros [Hlen Hincl]. split; [exact Hlen|]. intros k. split; [apply Hincl|].
    apply (NoDup_length_incl Hnodup); [lia | exact Hincl].
  - intros [Hlen Hsame]. split; [exact Hlen|]. intros k. apply Hsame.
Qed.

(** C6, at the failing input: for the object [{a: 1, b: 2}] and the key
    list [["a", "a"]] the assertion passes, although the object has the
    key [b], which is not among the given keys: the two lengths are
    both 2 and every given key is a key of the object. *)
Theorem hasAllKeys_duplicate_keys :
  Object_keys record_a_b = Returns ["a"; "b"] /\
  ~ In "b" ["a"; "a"] /\
  passes (hasAllKeys record_a_b ["a"; "a"] None).
Proof.
  split; [reflexivity|]. split; [|reflexivity].
  intros [H|[H|[]]]; discriminate.
Qed.

(** ** C8: symmetry of [_deepEqual] *)

Definition record_x : value := object_literal 401 [("x", num 1)].

(** C8, counterexample: [_deepEqual({toString: 1}, {x: 1})] is [true],
    because ["toString" in {x: 1}] holds through the prototype and the
    number 1 and the inherited function both have no keys; the other
    way round ["x" in {toString: 1}] does not hold and the result is
    [false]. *)
Lemma deepEqual_asymmetric_counterexample :
  _deepEqual record_toString record_x = Returns true /\
  _deepEqual record_x record_toString = Returns false /\
  _deepEqual record_toString record_x <> _deepEqual record_x record_toString.
Proof.
  split; [reflexivity|]. split; [reflexivity|]. discriminate.
Qed.

(** A second asymmetry: a string member against a record member with
    as many keys gives [false] one way and a TypeError the other. *)
Lemma deepEqual_asymmetric_string :
  let a := object_literal 402 [("k", VStr "ab")] in
  let b := object_literal 403 [("k", object_literal 404 [("x", num 1); ("y", num 2)])] in
  _deepEqual a b = Returns false /\ false_or_TypeError (_deepEqual b a) /\
  _deepEqual b a <> Returns false.
Proof.
  split; [reflexivity|]. split; [|discriminate].
  right. eexists. reflexivity.
Qed.

(** The name is one that every object literal inherits. *)
Definition inherited_name (key : string) : bool :=
  match assoc key Object_prototype with
  | Some _ => true
  | None => false
  end.

(** The values on which the comparison is symmetric: numbers, booleans
    and object literals (no enumerable property inherited, the hidden
    ones those of [Object.prototype]) whose keys are distinct, none of
    them an inherited name, and whose members are such values again. *)
Fixpoint plain (v : value) : Prop :=
  match v with
  | VBool _ | VNum _ => True
  | VObject _ ClassObject own inherited hidden _ =>
      inherited = [] /\ hidden = Object_prototype /\ NoDup (map fst own) /\
      (fix members (props : list (string * value)) : Prop :=
         match props with
         | [] => True
         | (k, x) :: rest => inherited_name k = false /\ plain x /\ members rest
         end) own
  | _ => False
  end.

Definition plain_member (p : string * value) : Prop :=
  inherited_name (fst p) = false /\ plain (snd p).

Lemma plain_object ref cls own inherited hidden conv :
  plain (VObject ref cls own inherited hidden conv) <->
  cls = ClassObject /\ inherited = [] /\ hidden = Object_prototype /\
  NoDup (map fst own) /\ Forall plain_member own.
Proof.
  assert (Hmembers : forall props,
    (fix members (props : list (string * value)) : Prop :=
       match props with
       | [] => True
       | (k, x) :: rest => inherited_name k = false /\ plain x /\ members rest
       end) props <-> Forall plain_member props).
  { induction props as [|[k x] rest IH].
    - split; constructor.
    - rewrite Forall_cons_iff, <- IH. unfold plain_member. cbn. tauto. }
  cbn [plain]. destruct cls; try (split; [contradiction | intros [? _]; discriminate]).
  rewrite Hmembers. tauto.
Qed.

Lemma assoc_Some_keys key props :
  (exists v, assoc key props = Some v) <-> In key (map fst props).
Proof.
  induction props as [|[k x] rest IH]; cbn.
  - split; [intros [v H]; discriminate | contradiction].
  - destruct (String.eqb key k) eqn:E.
    + apply String.eqb_eq in E. subst. split; [now left | intros _; now exists x].
    + apply String.eqb_neq in E. rewrite IH. split; [now right|].
      intros [H|H]; [congruence | exact H].
Qed.

(** Among plain members a property is an own property. *)
Lemma property_plain own key :
  inherited_name key = false -> property own [] Object_prototype key = assoc key own.
Proof.
  unfold inherited_name, property. intros H.
  destruct (assoc key own); [reflexivity|]. cbn [assoc].
  destruct (assoc key Object_prototype); [discriminate | reflexivity].
Qed.

Lemma plain_member_of own key :
  Forall plain_member own -> In key (map fst own) ->
  inherited_name key = false /\ exists v, assoc key own = Some v /\ plain v.
Proof.
  intros Hall Hin. apply assoc_Some_keys in Hin as [v Hv].
  pose proof (assoc_In _ _ _ Hv) as Hmem.
  rewrite Forall_forall in Hall. destruct (Hall _ Hmem) as [Hname Hplain].
  split; [exact Hname|]. now exists v.
Qed.

Lemma deepEqual_loop_returns rec obj1 obj2 keys :
  (forall key, In key keys ->
     exists present, HasProperty key obj2 = Returns present /\
       (present = true ->
        exists v1 v2 r, Get obj1 key = Returns v1 /\ Get obj2 key = Returns v2 /\
                        rec v1 v2 = Returns r)) ->
  exists r, deepEqual_loop rec obj1 obj2 keys = Returns r.
Proof.
  induction keys as [|key rest IH]; intros H; cbn [deepEqual_loop].
  - now exists true.
  - destruct (H key (or_introl eq_refl)) as (present & Hin & Hmember).
    rewrite Hin. cbn [bind]. destruct present; cbn [negb]; [|now exists false].
    destruct (Hmember eq_refl) as (v1 & v2 & r & G1 & G2 & R).
    rewrite G1, G2. cbn [bind]. rewrite R. cbn [bind].
    destruct r; cbn [negb]; [|now exists false].
    apply IH. intros k Hk. apply H. now right.
Qed.

Lemma for_in_without_inherited ref cls own hidden conv :
  for_in (VObject ref cls own [] hidden conv) = map fst own.
Proof. cbn. apply app_nil_r. Qed.

Section PlainObjects.
Variables ref1 ref2 : nat.
Variables own1 own2 : list (string * value).
Variables conv1 conv2 : conversion.
Let obj1 := VObject ref1 ClassObject own1 [] Object_prototype conv1.
Let obj2 := VObject ref2 ClassObject own2 [] Object_prototype conv2.
Hypothesis plain1 : Forall plain_member own1.
Hypothesis plain2 : Forall plain_member own2.
Hypothesis distinct1 : NoDup (map fst own1).
Hypothesis same_count : length (map fst own1) = length (map fst own2).
Hypothesis members_symmetric : forall key v1 v2,
  assoc key own1 = Some v1 -> assoc key own2 = Some v2 ->
  _deepEqual v1 v2 = _deepEqual v2 v1 /\ exists r, _deepEqual v1 v2 = Returns r.

Lemma plain_loop_returns :
  exists r, deepEqual_loop _deepEqual obj1 obj2 (map fst own1) = Returns r.
Proof.
  apply deepEqual_loop_returns. intros key Hkey.
  destruct (plain_member_of own1 key plain1 Hkey) as (Hname & v1 & Hv1 & _).
  subst obj1 obj2. cbn [HasProperty Get]. rewrite !(property_plain _ _ Hname), Hv1.
  destruct (assoc key own2) as [v2|] eqn:Hv2.
  - exists true. split; [reflexivity|]. intros _.
    destruct (members_symmetric key v1 v2 Hv1 Hv2) as [_ [r Hr]].
    exists v1, v2, r. auto.
  - exists false. split; [reflexivity | discriminate].
Qed.

Lemma plain_loop_converse :
  deepEqual_loop _deepEqual obj1 obj2 (map fst own1) = Returns true ->
  deepEqual_loop _deepEqual obj2 obj1 (map fst own2) = Returns true.
Proof.
  rewrite !deepEqual_loop_true. intros Hagree.
  assert (Hincl : incl (map fst own1) (map fst own2)).
  { intros key Hkey. destruct (Hagree key Hkey) as [Hin _].
    destruct (plain_member_of own1 key plain1 Hkey) as (Hname & _).
    subst obj2. cbn [HasProperty] in Hin. rewrite (property_plain _ _ Hname) in Hin.
    apply assoc_Some_keys. destruct (assoc key own2) as [v|]; [now exists v | discriminate]. }
  assert (Hback : incl (map fst own2) (map fst own1)).
  { apply (NoDup_length_incl distinct1); [lia | exact Hincl]. }
  intros key Hkey2. pose proof (Hback key Hkey2) as Hkey1.
  destruct (Hagree key Hkey1) as (_ & v1 & v2 & G1 & G2 & Hsame).
  destruct (plain_member_of own1 key plain1 Hkey1) as (Hname & w1 & Hw1 & _).
  destruct (plain_member_of own2 key plain2 Hkey2) as (_ & w2 & Hw2 & _).
  subst obj1 obj2. unfold member_agrees. cbn [Get HasProperty] in *.
  rewrite !(property_plain _ _ Hname) in *. rewrite Hw1 in *. rewrite Hw2 in *.
  injection G1 as <-. injection G2 as <-.
  split; [reflexivity|]. exists w2, w1. repeat split.
  destruct (members_symmetric key w1 w2 Hw1 Hw2) as [<- _]. exact Hsame.
Qed.
End PlainObjects.

Lemma deepEqual_plain (b a : value) :
  plain a -> plain b ->
  _deepEqual a b = _deepEqual b a /\ exists r, _deepEqual a b = Returns r.
Proof.
  revert a. induction b as [| | x | n | s | ref2 cls2 own2 inherited2 hidden2 conv2 IHown _ _]
    using value_induction; intros a Ha Hb; try contradiction.
  - (* a boolean on the right *)
    destruct a as [| | y | m | t | ref1 cls1 own1 inherited1 hidden1 conv1];
      try contradiction.
    + rewrite !_deepEqual_unfold; unfold deepEqual_body; cbn.
      destruct x, y; cbn; split; eauto.
    + rewrite !_deepEqual_unfold; unfold deepEqual_body; cbn. split; eauto.
    + apply plain_object in Ha as (-> & -> & -> & _).
      rewrite !_deepEqual_unfold; unfold deepEqual_body.
      rewrite for_in_without_inherited. cbn. destruct own1; cbn; split; eauto.
  - (* a number on the right *)
    destruct a as [| | y | m | t | ref1 cls1 own1 inherited1 hidden1 conv1];
      try contradiction.
    + rewrite !_deepEqual_unfold; unfold deepEqual_body; cbn. split; eauto.
    + rewrite !_deepEqual_unfold; unfold deepEqual_body; cbn.
      assert (Hsym : number_eqb n m = number_eqb m n).
      { destruct n as [|[]| |z], m as [|[]| |z']; cbn; try reflexivity. apply Z.eqb_sym. }
      rewrite Hsym. destruct (number_eqb m n); split; eauto.
    + apply plain_object in Ha as (-> & -> & -> & _).
      rewrite !_deepEqual_unfold; unfold deepEqual_body.
      rewrite for_in_without_inherited. cbn. destruct own1; cbn; split; eauto.
  - (* an object literal on the right *)
    apply plain_object in Hb as (-> & -> & -> & Hdistinct2 & Hplain2).
    destruct a as [| | y | m | t | ref1 cls1 own1 inherited1 hidden1 conv1];
      try contradiction.
    + rewrite !_deepEqual_unfold; unfold deepEqual_body.
      rewrite for_in_without_inherited. cbn. destruct own2; cbn; split; eauto.
    + rewrite !_deepEqual_unfold; unfold deepEqual_body.
      rewrite for_in_without_inherited. cbn. destruct own2; cbn; split; eauto.
    + apply plain_object in Ha as (-> & -> & -> & Hdistinct1 & Hplain1).
      assert (Hmembers : forall key v1 v2,
                 assoc key own1 = Some v1 -> assoc key own2 = Some v2 ->
                 _deepEqual v1 v2 = _deepEqual v2 v1 /\
                 exists r, _deepEqual v1 v2 = Returns r).
      { intros key v1 v2 H1 H2.
        apply assoc_In in H1, H2.
        rewrite Forall_forall in IHown, Hplain1, Hplain2.
        apply (IHown _ H2); [apply (Hplain1 _ H1) | apply (Hplain2 _ H2)]. }
      assert (Hmembers' : forall key v2 v1,
                 assoc key own2 = Some v2 -> assoc key own1 = Some v1 ->
                 _deepEqual v2 v1 = _deepEqual v1 v2 /\
                 exists r, _deepEqual v2 v1 = Returns r).
      { intros key v2 v1 H2 H1.
        destruct (Hmembers key v1 v2 H1 H2) as [Heq [r Hr]].
        split; [now symmetry|]. exists r. now rewrite <- Heq. }
      rewrite !_deepEqual_unfold; unfold deepEqual_body.
      rewrite !for_in_without_inherited.
      cbn [strict_eq Object_keys bind]. rewrite (Nat.eqb_sym ref2 ref1).
      destruct (Nat.eqb ref1 ref2); [split; eauto|].
      rewrite (Nat.eqb_sym (length (map fst own2))).
      destruct (length (map fst own1) =? length (map fst own2))%nat eqn:Hcount;
        cbn [negb]; [|split; eauto].
      apply Nat.eqb_eq in Hcount.
      destruct (plain_loop_returns ref1 ref2 own1 own2 conv1 conv2 Hplain1 Hmembers)
        as [r1 Hr1].
      destruct (plain_loop_returns ref2 ref1 own2 own1 conv2 conv1 Hplain2 Hmembers')
        as [r2 Hr2].
      pose proof (plain_loop_converse ref1 ref2 own1 own2 conv1 conv2 Hplain1 Hplain2
                    Hdistinct1 Hcount Hmembers) as H12.
      pose proof (plain_loop_converse ref2 ref1 own2 own1 conv2 conv1 Hplain2 Hplain1
                    Hdistinct2 (eq_sym Hcount) Hmembers') as H21.
      rewrite Hr1, Hr2 in *. split; [|eauto].
      destruct r1, r2; try reflexivity.
      * specialize (H12 eq_refl). discriminate.
      * specialize (H21 eq_refl). discriminate.
Qed.

(** C8 (amended): on numbers, booleans and object literals whose keys
    are not names inherited from [Object.prototype] and whose members
    are again such values, [_deepEqual(a, b)] returns a boolean, the
    same one as [_deepEqual(b, a)]. *)
Theorem deepEqual_symmetric_on_plain (a b : value) :
  plain a -> plain b ->
  (exists r, _deepEqual a b = Returns r) /\ _deepEqual a b = _deepEqual b a.
Proof.
  intros Ha Hb. destruct (deepEqual_plain b a Ha Hb) as [Hsym Hr]. auto.
Qed.

Definition nested_1 : value :=
  object_literal 410 [("a", num 1); ("b", object_literal 411 [("c", num 2)])].
Definition nested_2 : value :=
  object_literal 412 [("b", object_literal 413 [("c", num 2)]); ("a", num 1)].

Lemma deepEqual_symmetric_on_plain_witness :
  plain nested_1 /\ plain nested_2 /\
  (exists r, _deepEqual nested_1 nested_2 = Returns r) /\
  _deepEqual nested_1 nested_2 = _deepEqual nested_2 nested_1.
Proof.
  assert (H1 : plain nested_1).
  { cbn. repeat split; repeat constructor; cbn; intuition discriminate. }
  assert (H2 : plain nested_2).
  { cbn. repeat split; repeat constructor; cbn; intuition discriminate. }
  split; [exact H1|]. split; [exact H2|].
  exact (deepEqual_symmetric_on_plain nested_1 nested_2 H1 H2).
Defined.

(** * The rest of the assertion set *)

(** ** The relational operators on numbers *)

(** [Number::lessThan(x, y)]: undefined ([None]) when an operand is
    NaN; the two zeros are not below each other. *)
Definition Number_lessThan (x y : number) : option bool :=
  match x, y with
  | NaN, _ | _, NaN => None
  | Infinity true, Infinity true => Some false
  | Infinity true, _ => Some true
  | _, Infinity true => Some false
  | Infinity false, _ => Some false
  | _, Infinity false => Some true
  | NegZero, NegZero => Some false
  | NegZero, Int z => Some (0 <? z)%Z
  | Int z, NegZero => Some (z <? 0)%Z
  | Int a, Int b => Some (a <? b)%Z
  end.

(** [x < y], [x > y] and [x >= y]: an undefined comparison is [false]. *)
Definition less (x y : number) : bool :=
  match Number_lessThan x y with
  | Some true => true
  | _ => false
  end.

Definition greater (x y : number) : bool := less y x.

Definition greater_or_equal (x y : number) : bool :=
  match Number_lessThan x y with
  | Some false => true
  | _ => false
  end.

(** ** The assertions *)

Definition assert (condition : value) (message : option string) : result unit :=
  call (return_if (truthy condition) ;;;
        fail_with (or_else message
          (t <- template condition ;; Returns ("Expected " ++ t ++ " to be truthy")))).

Definition isAbove (valueToCheck valueToBeAbove : number) (message : option string)
  : result unit :=
  call (return_if (greater valueToCheck valueToBeAbove) ;;;
        fail_with (or_else message
          (Returns ("Expected " ++ Number_toString valueToCheck ++ " to be higher than "
                      ++ Number_toString valueToBeAbove)))).

Definition isAtLeast (valueToCheck valueToBeAtLeast : number) (message : option string)
  : result unit :=
  call (return_if (greater_or_equal valueToCheck valueToBeAtLeast) ;;;
        fail_with (or_else message
          (Returns ("Expected " ++ Number_toString valueToCheck ++ " to be lower than "
                      ++ Number_toString valueToBeAtLeast)))).

Definition isBelow (valueToCheck valueToBeBelow : number) (message : option string)
  : result unit :=
  call (return_if (less valueToCheck valueToBeBelow) ;;;
        fail_with (or_else message
          (Returns ("Expected " ++ Number_toString valueToCheck ++ " to be lower than "
                      ++ Number_toString valueToBeBelow)))).

Definition isTrue (value : value) (message : option string) : result unit :=
  call (return_if (strict_eq value (VBool true)) ;;;
        fail_with (or_else message
          (t <- template value ;; Returns ("Expected " ++ t ++ " to be true")))).

Definition isFalse (value : value) (message : option string) : result unit :=
  call (return_if (strict_eq value (VBool false)) ;;;
        fail_with (or_else message
          (t <- template value ;; Returns ("Expected " ++ t ++ " to be false")))).

Definition isNull (value : value) (message : option string) : result unit :=
  call (return_if (strict_eq value VNull) ;;;
        fail_with (or_else message
          (t <- template value ;; Returns ("Expected " ++ t ++ " to be null")))).

Definition isNotNull (value : value) (message : option string) : result unit :=
  call (return_if (negb (strict_eq value VNull)) ;;;
        fail_with (or_else message
          (t <- template value ;; Returns ("Expected " ++ t ++ " to be not null")))).

Definition isUndefined (value : value) (message : option string) : result unit :=
  call (return_if (strict_eq value VUndefined) ;;;
        fail_with (or_else message
          (t <- template value ;; Returns ("Expected " ++ t ++ " to be undefined")))).

(** [match(value, regexp, message)] *)
Definition match_ (value : string) (regexp : pattern) (message : option string)
  : result unit :=
  call (with_value (String_match value regexp) return_if ;;;
        fail_with (or_else message
          (Returns ("Expected " ++ value ++ " to match " ++ pattern_text regexp)))).

(** ** The deprecated aliases of the namespace variant

    [ok], [notOk] and [empty] write a line to the console and forward
    to the current name.  The console is the list of lines written so
    far. *)
Definition debug : bool := true.

Definition log (message : string) (console : list string) : list string :=
  if debug then console ++ [message] else console.

Definition ok (thing : value) (message : option string) (console : list string)
  : list string * result unit :=
  let console := log "ok() is deprecated. Use isOk() instead" console in
  (console, isOk thing message).

Definition notOk (thing : value) (message : option string) (console : list string)
  : list string * result unit :=
  let console := log "notOk() is deprecated. Use isNotOk() instead" console in
  (console, isNotOk thing message).

Definition empty (target : value) (console : list string) : list string * result unit :=
  let console := log "empty() is deprecated. Use isEmpty() instead" console in
  (console, isEmpty target).

(** * Further properties *)

(** ** The equality assertions against each other *)

Lemma number_eqb_sym (x y : number) : number_eqb x y = number_eqb y x.
Proof.
  destruct x as [|[]| |a], y as [|[]| |b]; cbn; try reflexivity. apply Z.eqb_sym.
Qed.

Lemma number_eqb_refl (x : number) : x <> NaN -> number_eqb x x = true.
Proof.
  destruct x as [|[]| |a]; cbn; intros H; try reflexivity.
  - now contradiction H.
  - apply Z.eqb_refl.
Qed.

Lemma strict_eq_sym (a b : value) : strict_eq a b = strict_eq b a.
Proof.
  destruct a, b; cbn; try reflexivity.
  - destruct b, b0; reflexivity.
  - apply number_eqb_sym.
  - apply String.eqb_sym.
  - apply Nat.eqb_sym.
Qed.

Lemma strict_eq_refl (x : value) : x <> VNum NaN -> strict_eq x x = true.
Proof.
  destruct x as [| | b | n | s | ref cls own inherited hidden conv]; cbn; intros H;
    try reflexivity.
  - now destruct b.
  - apply number_eqb_refl. congruence.
  - apply String.eqb_refl.
  - apply Nat.eqb_refl.
Qed.

(** Two values that [===] accepts are of one type, and [==] compares
    them without converting anything. *)
Lemma strict_eq_loose_eq (a b : value) :
  strict_eq a b = true -> loose_eq a b = Returns true.
Proof.
  destruct a, b; cbn; try discriminate; auto.
  - destruct b, b0; cbn; auto; discriminate.
  - intros ->. reflexivity.
  - intros ->. reflexivity.
  - intros ->. reflexivity.
Qed.

Lemma strict_eq_SameValueZero (a b : value) :
  strict_eq a b = true -> SameValueZero a b = true.
Proof.
  unfold SameValueZero. destruct a as [| | | [] | |]; auto. destruct b as [| | | [] | |]; auto.
Qed.

Lemma loose_eq_primitive_sym (a b : value) :
  loose_eq_primitive a b = loose_eq_primitive b a.
Proof.
  unfold loose_eq_primitive.
  rewrite (orb_comm (null_or_undefined_value b)), (andb_comm (null_or_undefined_value b)).
  destruct (null_or_undefined_value a || null_or_undefined_value b); [reflexivity|].
  destruct a, b; try apply number_eqb_sym. apply String.eqb_sym.
Qed.

Lemma ToPrimitive_primitive (v : value) : is_object v = false -> ToPrimitive v = Returns v.
Proof. destruct v; try discriminate; reflexivity. Qed.

Lemma loose_eq_sym (a b : value) : loose_eq a b = loose_eq b a.
Proof.
  unfold loose_eq.
  rewrite (andb_comm (is_object b)), (strict_eq_sym b a),
    (orb_comm (null_or_undefined_value b)), (andb_comm (null_or_undefined_value b)).
  destruct (is_object a && is_object b) eqn:Hobj; [reflexivity|].
  destruct (null_or_undefined_value a || null_or_undefined_value b); [reflexivity|].
  apply andb_false_iff in Hobj as [Ha|Hb].
  - rewrite (ToPrimitive_primitive a Ha). cbn [bind].
    destruct (ToPrimitive b) as [pb|e]; cbn [bind]; [|reflexivity].
    now rewrite loose_eq_primitive_sym.
  - rewrite (ToPrimitive_primitive b Hb). cbn [bind].
    destruct (ToPrimitive a) as [pa|e]; cbn [bind]; [|reflexivity].
    now rewrite loose_eq_primitive_sym.
Qed.

(** X1: whatever [strictEqual] accepts, the looser assertions accept as
    well: [equal], [deepEqual], and [include] for any haystack holding
    the first value. *)
Theorem strictEqual_implies (a b : value) (m m' : option string) :
  passes (strictEqual a b m) ->
  passes (equal a b m') /\ passes (deepEqual a b m') /\
  forall haystack, In a haystack -> passes (include haystack b m').
Proof.
  unfold strictEqual, equal, deepEqual, include.
  rewrite guarded_passes, !computed_guard_passes.
  intros Hstrict. split; [now apply strict_eq_loose_eq|]. split.
  - apply _deepEqual_true_iff. now left.
  - intros haystack Hin. rewrite guarded_passes. apply existsb_exists.
    exists a. split; [exact Hin | now apply strict_eq_SameValueZero].
Qed.

Lemma strictEqual_implies_witness :
  passes (strictEqual (VStr "a") (VStr "a") None) /\
  passes (equal (VStr "a") (VStr "a") None) /\
  passes (include [num 1; VStr "a"] (VStr "a") None).
Proof.
  assert (H : passes (strictEqual (VStr "a") (VStr "a") None)) by reflexivity.
  destruct (strictEqual_implies _ _ None None H) as (Hequal & _ & Hinclude).
  split; [exact H|]. split; [exact Hequal|].
  apply Hinclude. right. now left.
Defined.

Lemma _deepEqual_refl (x : value) : _deepEqual x x = Returns true.
Proof.
  destruct x as [| | b | [|neg| |z] | s | ref cls own inherited hidden conv];
    try reflexivity;
    apply _deepEqual_true_iff; left; apply strict_eq_refl; discriminate.
Qed.

(** X2: a value compared with itself.  [equal(x, x)] and
    [strictEqual(x, x)] pass for every [x] except NaN, on which both
    fail; [deepEqual(x, x)] and [include([x], x)] pass for every [x],
    NaN included. *)
Theorem self_comparison (x : value) (m : option string) :
  (passes (equal x x m) <-> x <> VNum NaN) /\
  (passes (strictEqual x x m) <-> x <> VNum NaN) /\
  passes (deepEqual x x m) /\
  passes (include [x] x m).
Proof.
  unfold equal, strictEqual, deepEqual, include.
  rewrite !guarded_passes, !computed_guard_passes.
  assert (Hnan : forall y, y = VNum NaN \/ y <> VNum NaN).
  { intros [| | | [] | |]; try (right; discriminate). now left. }
  split; [|split; [|split]].
  - split.
    + intros H ->. discriminate.
    + intros H. now apply strict_eq_loose_eq, strict_eq_refl.
  - split.
    + intros H ->. discriminate.
    + apply strict_eq_refl.
  - apply _deepEqual_refl.
  - cbn. destruct (Hnan x) as [->|H]; [reflexivity|].
    now rewrite (strict_eq_SameValueZero _ _ (strict_eq_refl x H)).
Qed.

(** X3: [equal] and [strictEqual] do not depend on the order of their
    two subjects: swapping actual and expected keeps the outcome. *)
Theorem equal_symmetric (a b : value) (m : option string) :
  (passes (equal a b m) <-> passes (equal b a m)) /\
  (passes (strictEqual a b m) <-> passes (strictEqual b a m)) /\
  (passes (notEqual a b m) <-> passes (notEqual b a m)) /\
  (passes (notStrictEqual a b m) <-> passes (notStrictEqual b a m)).
Proof.
  unfold equal, strictEqual, notEqual, notStrictEqual.
  rewrite !guarded_passes, !computed_guard_passes, !negated_guard_passes.
  rewrite (loose_eq_sym a b), (strict_eq_sym a b). repeat split; auto.
Qed.

(** X4: the checks for [null] and [undefined].  [isNull] passes on
    [null] only and [isUndefined] on [undefined] only, [isNotNull]
    passes exactly where [isNull] fails, while [equal(x, null)] passes
    on both [null] and [undefined] and on nothing else. *)
Theorem null_and_undefined (x : value) (m : option string) :
  (passes (isNull x m) <-> x = VNull) /\
  (passes (isUndefined x m) <-> x = VUndefined) /\
  (passes (isNotNull x m) <-> fails (isNull x m)) /\
  (passes (equal x VNull m) <-> x = VNull \/ x = VUndefined).
Proof.
  unfold isNull, isUndefined, isNotNull, equal.
  rewrite !guarded_passes, guarded_fails, negb_true_iff, computed_guard_passes.
  split; [|split; [|split]].
  - destruct x; cbn; split; intros; try discriminate; auto.
  - destruct x; cbn; split; intros; try discriminate; auto.
  - reflexivity.
  - destruct x; cbn; split; intros H; try discriminate; auto;
      destruct H; discriminate.
Qed.

(** X5: [isTrue] and [isFalse] test for the two booleans themselves.
    [isTrue] passes on [true] only, so it implies [isOk]; [isFalse]
    passes on [false] only, so it implies [isNotOk]; on any value that
    is not a boolean both fail. *)
Theorem isTrue_isFalse (x : value) (m m' : option string) :
  (passes (isTrue x m) <-> x = VBool true) /\
  (passes (isFalse x m) <-> x = VBool false) /\
  (passes (isTrue x m) -> passes (isOk x m')) /\
  (passes (isFalse x m) -> passes (isNotOk x m')) /\
  ((forall b, x <> VBool b) -> fails (isTrue x m) /\ fails (isFalse x m)).
Proof.
  unfold isTrue, isFalse, isOk, isNotOk. rewrite !guarded_passes, !guarded_fails.
  split; [|split; [|split; [|split]]].
  - destruct x as [| | [] | | |]; cbn; split; intros; try discriminate; auto.
  - destruct x as [| | [] | | |]; cbn; split; intros; try discriminate; auto.
  - destruct x as [| | [] | | |]; cbn; intros; try discriminate; auto.
  - destruct x as [| | [] | | |]; cbn; intros; try discriminate; auto.
  - intros H. destruct x as [| | b | | |]; cbn; auto. now contradiction (H b).
Qed.

Lemma isTrue_isFalse_witness :
  (passes (isTrue (VBool true) None) /\ passes (isOk (VBool true) None)) /\
  (passes (isFalse (VBool false) None) /\ passes (isNotOk (VBool false) None)) /\
  (fails (isTrue (num 1) None) /\ fails (isFalse (num 1) None)).
Proof.
  split; [|split].
  - assert (H : passes (isTrue (VBool true) None)) by reflexivity.
    split; [exact H|].
    exact (proj1 (proj2 (proj2 (isTrue_isFalse (VBool true) None None))) H).
  - assert (H : passes (isFalse (VBool false) None)) by reflexivity.
    split; [exact H|].
    exact (proj1 (proj2 (proj2 (proj2 (isTrue_isFalse (VBool false) None None)))) H).
  - apply (proj2 (proj2 (proj2 (proj2 (isTrue_isFalse (num 1) None None))))).
    intros b. discriminate.
Defined.

(** ** What [_deepEqual] cannot tell apart, and where it throws *)

Lemma deepEqual_nothing_to_visit (a b : value) :
  Object_keys a = Returns [] -> Object_keys b = Returns [] -> for_in a = [] ->
  _deepEqual a b = Returns true.
Proof.
  intros Ka Kb Hfor. rewrite _deepEqual_unfold. unfold deepEqual_body.
  rewrite Ka, Kb, Hfor. cbn. now destruct (strict_eq a b).
Qed.

(** X6: two values without own enumerable keys, the first of which
    inherits no enumerable key either, always compare equal:
    [_deepEqual] returns [true] on any two numbers, booleans, empty
    strings, empty object literals, Maps or Sets, whatever they hold.
    So [deepEqual(1, 2)] passes and [notDeepEqual(1, 2)] fails. *)
Theorem deepEqual_without_keys (a b : value) (m : option string) :
  Object_keys a = Returns [] -> Object_keys b = Returns [] -> for_in a = [] ->
  _deepEqual a b = Returns true /\
  passes (deepEqual a b m) /\ fails (notDeepEqual a b m).
Proof.
  intros Ka Kb Hfor.
  pose proof (deepEqual_nothing_to_visit a b Ka Kb Hfor) as H.
  split; [exact H|]. unfold deepEqual, notDeepEqual.
  rewrite computed_guard_passes, negated_guard_fails, H. split; [reflexivity | discriminate].
Qed.

Lemma deepEqual_without_keys_witness :
  Object_keys (num 1) = Returns [] /\ Object_keys (num 2) = Returns [] /\
  for_in (num 1) = [] /\
  passes (deepEqual (num 1) (num 2) None) /\
  passes (deepEqual (Map_of_size 1 0) (Set_of_size 2 3) None).
Proof.
  split; [reflexivity|]. split; [reflexivity|]. split; [reflexivity|]. split.
  - apply (deepEqual_without_keys (num 1) (num 2) None); reflexivity.
  - apply (deepEqual_without_keys (Map_of_size 1 0) (Set_of_size 2 3) None); reflexivity.
Defined.

Lemma deepEqual_members_without_keys ref1 ref2 key x y :
  Object_keys x = Returns [] -> Object_keys y = Returns [] -> for_in x = [] ->
  _deepEqual (object_literal ref1 [(key, x)]) (object_literal ref2 [(key, y)])
  = Returns true.
Proof.
  intros Kx Ky Hfor. rewrite _deepEqual_unfold. unfold deepEqual_body, object_literal.
  rewrite for_in_without_inherited.
  cbn [strict_eq Object_keys bind map fst length Nat.eqb negb].
  destruct (ref1 =? ref2)%nat; [reflexivity|].
  cbn [deepEqual_loop HasProperty Get]. unfold property. cbn [assoc].
  rewrite String.eqb_refl. cbn [bind negb].
  rewrite (deepEqual_nothing_to_visit x y Kx Ky Hfor). reflexivity.
Qed.

(** X7: the blindness carries over to records: two object literals
    with one and the same single key compare equal as soon as the two
    members have no own enumerable keys and the first member inherits
    none, so [deepEqual({a: 1}, {a: 2})] passes. *)
Theorem deepEqual_record_of_keyless ref1 ref2 key x y (m : option string) :
  Object_keys x = Returns [] -> Object_keys y = Returns [] -> for_in x = [] ->
  passes (deepEqual (object_literal ref1 [(key, x)]) (object_literal ref2 [(key, y)]) m).
Proof.
  intros Kx Ky Hfor. unfold deepEqual. apply computed_guard_passes.
  now apply deepEqual_members_without_keys.
Qed.

Lemma deepEqual_record_of_keyless_witness :
  Object_keys (num 1) = Returns [] /\ Object_keys (num 2) = Returns [] /\
  for_in (num 1) = [] /\
  passes (deepEqual (object_literal 1 [("a", num 1)]) (object_literal 2 [("a", num 2)]) None).
Proof.
  split; [reflexivity|]. split; [reflexivity|]. split; [reflexivity|].
  apply (deepEqual_record_of_keyless 1 2 "a" (num 1) (num 2) None); reflexivity.
Defined.

Definition null_or_undefined (v : value) : Prop := v = VNull \/ v = VUndefined.

(** X8: [null] and [undefined] cannot be compared with anything but
    themselves: when one side of [_deepEqual] is [null] or [undefined]
    and the other side is a different value, the call throws a
    TypeError, and both [deepEqual] and [notDeepEqual] fail with it,
    not with their message. *)
Theorem deepEqual_null_throws (a b : value) (m : option string) :
  null_or_undefined a \/ null_or_undefined b ->
  strict_eq a b = false ->
  exists text,
    _deepEqual a b = Throws (TypeError text) /\
    deepEqual a b m = Throws (TypeError text) /\
    notDeepEqual a b m = Throws (TypeError text).
Proof.
  intros Hnull Hdiff.
  assert (H : exists text, _deepEqual a b = Throws (TypeError text)).
  { rewrite _deepEqual_unfold. unfold deepEqual_body. rewrite Hdiff.
    destruct Hnull as [[-> | ->] | [-> | ->]]; cbn;
      try (eexists; reflexivity);
      destruct a; cbn; eexists; reflexivity. }
  destruct H as [text H]. exists text. unfold deepEqual, notDeepEqual.
  rewrite H. repeat split.
Qed.

Lemma deepEqual_null_throws_witness :
  (null_or_undefined VNull \/ null_or_undefined empty_record) /\
  strict_eq VNull empty_record = false /\
  exists text, deepEqual VNull empty_record (Some "differs") = Throws (TypeError text).
Proof.
  assert (H : null_or_undefined VNull \/ null_or_undefined empty_record)
    by (left; now left).
  split; [exact H|]. split; [reflexivity|].
  destruct (deepEqual_null_throws VNull empty_record (Some "differs") H eq_refl)
    as (text & _ & Htext & _).
  exists text. exact Htext.
Defined.

(** ** Deep copies compare equal *)

Section SameMembers.
Variable R : value -> value -> Prop.

Fixpoint same_members (props1 props2 : list (string * value)) : Prop :=
  match props1, props2 with
  | [], [] => True
  | (k1, x1) :: rest1, (k2, x2) :: rest2 => k1 = k2 /\ R x1 x2 /\ same_members rest1 rest2
  | _, _ => False
  end.
End SameMembers.

(** [b] is a copy of [a]: the same primitive, or an object (of any
    reference) with the same enumerable keys in the same order, own and
    inherited, whose members are copies of the members of [a]. *)
Fixpoint clone (a b : value) {struct a} : Prop :=
  match a, b with
  | VObject _ _ own1 inherited1 _ _, VObject _ _ own2 inherited2 _ _ =>
      same_members clone own1 own2 /\ same_members clone inherited1 inherited2
  | VObject _ _ _ _ _ _, _ => False
  | _, VObject _ _ _ _ _ _ => False
  | _, _ => a = b
  end.

Lemma same_members_keys R props1 props2 :
  same_members R props1 props2 -> map fst props1 = map fst props2.
Proof.
  revert props2. induction props1 as [|[k1 x1] rest1 IH]; intros [|[k2 x2] rest2]; cbn;
    try contradiction; [reflexivity|].
  intros (-> & _ & H). f_equal. now apply IH.
Qed.

Lemma same_members_assoc R props1 props2 key x1 :
  same_members R props1 props2 -> assoc key props1 = Some x1 ->
  exists x2, assoc key props2 = Some x2 /\ R x1 x2.
Proof.
  revert props2. induction props1 as [|[k1 y1] rest1 IH]; intros [|[k2 y2] rest2]; cbn;
    try contradiction; try discriminate.
  intros (-> & Hy & H). destruct (String.eqb key k2).
  - intros [= ->]. now exists y2.
  - now apply IH.
Qed.

Lemma has_key_In key keys : has_key key keys = true <-> In key keys.
Proof.
  unfold has_key. rewrite existsb_exists. split.
  - intros (k & Hk & E). apply String.eqb_eq in E. now subst.
  - intros H. exists key. split; [exact H | apply String.eqb_refl].
Qed.

Lemma assoc_None key props : ~ In key (map fst props) -> assoc key props = None.
Proof.
  intros H. destruct (assoc key props) as [v|] eqn:E; [|reflexivity].
  contradiction H. apply assoc_Some_keys. now exists v.
Qed.

(** A key that [for...in] visits is an own key, or an inherited one
    that is not an own key. *)
Lemma for_in_object ref cls own inherited hidden conv key :
  In key (for_in (VObject ref cls own inherited hidden conv)) ->
  In key (map fst own) \/ (~ In key (map fst own) /\ In key (map fst inherited)).
Proof.
  cbn [for_in]. rewrite in_app_iff, filter_In, negb_true_iff.
  intros [H|[H Hnot]]; [now left|]. right. split; [|exact H].
  intros Hown. apply has_key_In in Hown. congruence.
Qed.

Lemma deepEqual_clone (a b : value) : clone a b -> _deepEqual a b = Returns true.
Proof.
  revert b. induction a as [| | x | n | s | ref1 cls1 own1 inherited1 hidden1 conv1
                              IHown IHinherited _]
    using value_induction; intros b Hclone.
  1-5: destruct b; cbn in Hclone; try contradiction; try discriminate;
       inversion Hclone; subst; apply _deepEqual_refl.
  destruct b as [| | | | | ref2 cls2 own2 inherited2 hidden2 conv2]; try contradiction.
  cbn [clone] in Hclone. destruct Hclone as [Hown Hinherited].
  apply _deepEqual_true_iff. right.
  exists (map fst own1), (map fst own2). split; [reflexivity|]. split; [reflexivity|].
  split; [now rewrite (same_members_keys _ _ _ Hown)|].
  intros key Hkey. unfold member_agrees. cbn [HasProperty Get]. unfold property.
  apply for_in_object in Hkey as [Hkey|[Hnot Hkey]].
  - apply assoc_Some_keys in Hkey as [x1 Hx1].
    destruct (same_members_assoc _ _ _ _ _ Hown Hx1) as (x2 & Hx2 & Hcopy).
    rewrite Hx1, Hx2. split; [reflexivity|]. exists x1, x2. repeat split.
    apply assoc_In in Hx1. rewrite Forall_forall in IHown.
    exact (IHown _ Hx1 x2 Hcopy).
  - rewrite (assoc_None key own1 Hnot).
    rewrite (same_members_keys _ _ _ Hown) in Hnot. rewrite (assoc_None key own2 Hnot).
    apply assoc_Some_keys in Hkey as [x1 Hx1].
    destruct (same_members_assoc _ _ _ _ _ Hinherited Hx1) as (x2 & Hx2 & Hcopy).
    rewrite Hx1, Hx2. split; [reflexivity|]. exists x1, x2. repeat split.
    apply assoc_In in Hx1. rewrite Forall_forall in IHinherited.
    exact (IHinherited _ Hx1 x2 Hcopy).
Qed.

(** X9: a deep copy compares equal to its original.  When [b] has the
    enumerable keys of [a] in the same order, own and inherited, and
    each member of [b] is in turn a copy of the member of [a]
    (primitives copied as they are, NaN included), [deepEqual(a, b)]
    passes and [notDeepEqual(a, b)] fails, whatever the references,
    classes and non-enumerable properties are. *)
Theorem deepEqual_accepts_clone (a b : value) (m : option string) :
  clone a b -> passes (deepEqual a b m) /\ fails (notDeepEqual a b m).
Proof.
  intros H. apply deepEqual_clone in H. unfold deepEqual, notDeepEqual.
  rewrite computed_guard_passes, negated_guard_fails, H. split; [reflexivity | discriminate].
Qed.

Lemma deepEqual_accepts_clone_witness :
  clone nested_1 (object_literal 420 [("a", num 1); ("b", object_literal 421 [("c", num 2)])]) /\
  passes (deepEqual nested_1
            (object_literal 420 [("a", num 1); ("b", object_literal 421 [("c", num 2)])])
            None) /\
  clone (Object_create 422 [("x", num 1)]) (Object_create 423 [("x", num 1)]) /\
  passes (deepEqual (Object_create 422 [("x", num 1)]) (Object_create 423 [("x", num 1)]) None).
Proof.
  assert (H : clone nested_1
                (object_literal 420 [("a", num 1); ("b", object_literal 421 [("c", num 2)])]))
    by (cbn; repeat split).
  assert (H' : clone (Object_create 422 [("x", num 1)]) (Object_create 423 [("x", num 1)]))
    by (cbn; repeat split).
  split; [exact H|]. split; [exact (proj1 (deepEqual_accepts_clone _ _ None H))|].
  split; [exact H'|]. exact (proj1 (deepEqual_accepts_clone _ _ None H')).
Defined.

(** ** The key assertions *)

Lemma every_Object_keys thing names keys :
  Object_keys thing = Returns names ->
  every (fun key => names' <- Object_keys thing ;; Returns (includes_key names' key)) keys
  = Returns (forallb (includes_key names) keys).
Proof.
  intros Hkeys. induction keys as [|key rest IH]; cbn [every forallb]; [reflexivity|].
  rewrite IH, Hkeys. cbn [bind]. now destruct (includes_key names key).
Qed.

Lemma forallb_includes_key names keys :
  forallb (includes_key names) keys = true <-> incl keys names.
Proof.
  rewrite forallb_forall. unfold incl.
  split; intros H k Hk; apply includes_key_In; auto.
Qed.

Lemma containsAllKeys_passes thing keys m names :
  Object_keys thing = Returns names ->
  (passes (containsAllKeys thing keys m) <-> incl keys names).
Proof.
  intros Hkeys. unfold containsAllKeys.
  rewrite (every_Object_keys _ _ _ Hkeys). cbn [with_value].
  rewrite guarded_passes. apply forallb_includes_key.
Qed.

(** X10: [containsAllKeys(thing, keys)] passes exactly when every given
    key is an own enumerable key of [thing]; repetitions and order in
    the key list play no part.  When a key is missing and no message is
    given, the failure lists the keys of [thing] and the given keys. *)
Theorem containsAllKeys_subset thing keys names :
  Object_keys thing = Returns names ->
  (forall m, passes (containsAllKeys thing keys m) <-> incl keys names) /\
  (~ incl keys names ->
   fails_with ("Expected " ++ join names ++ " to include all the keys: " ++ join keys)
              (containsAllKeys thing keys None)).
Proof.
  intros Hkeys. split; [intros m; now apply containsAllKeys_passes|].
  intros Hmissing. unfold containsAllKeys, fails_with.
  rewrite (every_Object_keys _ _ _ Hkeys). cbn [with_value].
  destruct (forallb (includes_key names) keys) eqn:Hall.
  - apply forallb_includes_key in Hall. contradiction.
  - cbn [return_if then_ or_else]. rewrite Hkeys. reflexivity.
Qed.

Lemma containsAllKeys_subset_witness :
  Object_keys record_a_b = Returns ["a"; "b"] /\
  passes (containsAllKeys record_a_b ["b"; "b"; "a"] None) /\
  fails_with "Expected a,b to include all the keys: a,c"
             (containsAllKeys record_a_b ["a"; "c"] None).
Proof.
  destruct (containsAllKeys_subset record_a_b ["b"; "b"; "a"] ["a"; "b"] eq_refl)
    as [Hpass _].
  destruct (containsAllKeys_subset record_a_b ["a"; "c"] ["a"; "b"] eq_refl)
    as [_ Hfail].
  split; [reflexivity|]. split.
  - apply Hpass. intros k [<-|[<-|[<-|[]]]]; cbn; auto.
  - apply Hfail. intros H. destruct (H "c") as [E|[E|[]]]; [cbn; auto | |]; discriminate.
Defined.

(** X11: [hasAllKeys] is the stronger of the two key assertions:
    whenever it passes, [containsAllKeys] passes on the same object and
    keys. *)
Theorem hasAllKeys_implies_containsAllKeys thing keys (m m' : option string) :
  passes (hasAllKeys thing keys m) -> passes (containsAllKeys thing keys m').
Proof.
  destruct (Object_keys thing) as [names|e] eqn:Hkeys.
  - rewrite (hasAllKeys_passes _ _ _ _ Hkeys), (containsAllKeys_passes _ _ _ _ Hkeys).
    now intros [_ H].
  - unfold hasAllKeys, passes. rewrite Hkeys. discriminate.
Qed.

Lemma hasAllKeys_implies_containsAllKeys_witness :
  passes (hasAllKeys record_a_b ["b"; "a"] None) /\
  passes (containsAllKeys record_a_b ["b"; "a"] (Some "missing")).
Proof.
  assert (H : passes (hasAllKeys record_a_b ["b"; "a"] None)) by reflexivity.
  split; [exact H|].
  exact (hasAllKeys_implies_containsAllKeys record_a_b ["b"; "a"] None (Some "missing") H).
Defined.

(** X12: the keys of [null] and [undefined] cannot be read.  On such a
    [thing], [hasAllKeys] throws a TypeError for every key list, the
    empty one included, and [containsAllKeys] throws it for every key
    list but the empty one; the message given is not used. *)
Theorem keys_of_null thing keys (m : option string) :
  null_or_undefined thing ->
  (exists text, hasAllKeys thing keys m = Throws (TypeError text)) /\
  (keys <> [] -> exists text, containsAllKeys thing keys m = Throws (TypeError text)).
Proof.
  intros [-> | ->]; (split; [eexists; reflexivity|]);
    (destruct keys as [|key rest]; [intros H; now contradiction H|]);
    intros _; eexists; reflexivity.
Qed.

Lemma keys_of_null_witness :
  null_or_undefined VNull /\
  (exists text, hasAllKeys VNull [] (Some "no keys") = Throws (TypeError text)) /\
  (exists text, containsAllKeys VNull ["a"] (Some "no keys") = Throws (TypeError text)).
Proof.
  assert (H : null_or_undefined VNull) by now left.
  split; [exact H|].
  split.
  - exact (proj1 (keys_of_null VNull [] (Some "no keys") H)).
  - apply (proj2 (keys_of_null VNull ["a"] (Some "no keys") H)). discriminate.
Defined.

(** X21: on an object (its keys are distinct) and a key list without
    repetitions, [hasAllKeys] passes exactly when the given keys and
    the own enumerable keys of the object are the same set; the order
    of the keys plays no part. *)
Theorem hasAllKeys_set_equality thing keys (m : option string) names :
  Object_keys thing = Returns names ->
  NoDup names -> NoDup keys ->
  (passes (hasAllKeys thing keys m) <-> forall k, In k keys <-> In k names).
Proof.
  intros Hkeys Hnames Hdistinct. rewrite (hasAllKeys_passes _ _ _ _ Hkeys). split.
  - intros [Hlen Hincl] k. split; [apply Hincl|].
    apply (NoDup_length_incl Hdistinct); [lia | exact Hincl].
  - intros Hsame. split.
    + apply Nat.le_antisymm; apply NoDup_incl_length; auto; intros k; apply Hsame.
    + intros k. apply Hsame.
Qed.

Lemma hasAllKeys_set_equality_witness :
  Object_keys record_a_b = Returns ["a"; "b"] /\ NoDup ["a"; "b"] /\ NoDup ["b"; "a"] /\
  passes (hasAllKeys record_a_b ["b"; "a"] None) /\
  fails (hasAllKeys record_a_b ["a"] None).
Proof.
  assert (H1 : NoDup ["a"; "b"])
    by (repeat (apply NoDup_cons; [cbn; intuition discriminate|]); apply NoDup_nil).
  assert (H2 : NoDup ["b"; "a"])
    by (repeat (apply NoDup_cons; [cbn; intuition discriminate|]); apply NoDup_nil).
  assert (H3 : NoDup ["a"])
    by (repeat (apply NoDup_cons; [cbn; intuition discriminate|]); apply NoDup_nil).
  split; [reflexivity|]. split; [exact H1|]. split; [exact H2|]. split.
  - apply (hasAllKeys_set_equality record_a_b ["b"; "a"] None ["a"; "b"] eq_refl H1 H2).
    intros k. cbn. tauto.
  - destruct (hasAllKeys record_a_b ["a"] None) as [[]|e] eqn:E; [|now exists e].
    pose proof (proj1 (hasAllKeys_set_equality record_a_b ["a"] None ["a"; "b"]
                         eq_refl H1 H3) E "b") as Hb.
    destruct (proj2 Hb (or_intror (or_introl eq_refl))) as [F|[]]. discriminate.
Defined.

(** ** Membership *)

(** X13: [include] over haystacks.  Nothing is included in the empty
    array; a needle is included in a concatenation exactly when it is
    included in one of the two parts; and [notInclude] passes exactly
    where [include] fails. *)
Theorem include_haystacks (needle : value) (m : option string) :
  fails (include [] needle m) /\ passes (notInclude [] needle m) /\
  (forall haystack, passes (notInclude haystack needle m) <-> fails (include haystack needle m)) /\
  (forall h1 h2, passes (include (h1 ++ h2) needle m) <->
                 passes (include h1 needle m) \/ passes (include h2 needle m)) /\
  (forall h1 h2, passes (notInclude (h1 ++ h2) needle m) <->
                 passes (notInclude h1 needle m) /\ passes (notInclude h2 needle m)).
Proof.
  unfold include, notInclude.
  split; [now apply guarded_fails|]. split; [reflexivity|]. split; [|split].
  - intros haystack. rewrite guarded_passes, guarded_fails. apply negb_true_iff.
  - intros h1 h2. rewrite !guarded_passes. unfold includes.
    rewrite existsb_app. apply orb_true_iff.
  - intros h1 h2. rewrite !guarded_passes, !negb_true_iff. unfold includes.
    rewrite existsb_app. apply orb_false_iff.
Qed.

(** ** The order assertions *)

Lemma Number_lessThan_NaN (a b : number) :
  a = NaN \/ b = NaN -> Number_lessThan a b = None.
Proof.
  intros [-> | ->]; [reflexivity|]. now destruct a as [|[]| |z].
Qed.

Lemma greater_or_equal_iff (a b : number) :
  greater_or_equal a b = true <-> greater a b = true \/ number_eqb a b = true.
Proof.
  unfold greater_or_equal, greater, less.
  destruct a as [|[]| |x], b as [|[]| |y]; cbn;
    repeat match goal with
           | |- context [(?u <? ?v)%Z] => destruct (Z.ltb_spec u v)
           | |- context [(?u =? ?v)%Z] => destruct (Z.eqb_spec u v)
           end;
    try lia; split; auto; intros [H|H]; auto; discriminate.
Qed.

Lemma greater_or_equal_not_less (a b : number) :
  a <> NaN -> b <> NaN -> (greater_or_equal a b = true <-> less a b = false).
Proof.
  unfold greater_or_equal, less. intros Ha Hb.
  destruct a as [|[]| |x], b as [|[]| |y]; cbn; try congruence;
    try (split; auto; discriminate);
    destruct (_ <? _)%Z; split; auto; discriminate.
Qed.

(** X14: the three order assertions on numbers.  [isAbove(a, b)] passes
    exactly when [isBelow(b, a)] does; [isAtLeast(a, b)] passes exactly
    when [isAbove(a, b)] passes or the two numbers are equal under
    [===]; on two numbers other than NaN, [isAtLeast(a, b)] passes
    exactly when [isBelow(a, b)] fails; when one of them is NaN all
    three fail.  A failing [isAtLeast] reports, without a message and
    on safe integers, "Expected a to be lower than b". *)
Theorem order_assertions (a b : number) (m : option string) :
  (passes (isAbove a b m) <-> passes (isBelow b a m)) /\
  (passes (isAtLeast a b m) <->
     passes (isAbove a b m) \/ passes (strictEqual (VNum a) (VNum b) m)) /\
  (a <> NaN -> b <> NaN ->
     (passes (isAtLeast a b m) <-> fails (isBelow a b m))) /\
  (a = NaN \/ b = NaN ->
     fails (isAbove a b m) /\ fails (isAtLeast a b m) /\ fails (isBelow a b m)) /\
  (safe_integer a -> safe_integer b -> fails (isAtLeast a b None) ->
     fails_with ("Expected " ++ Number_toString a ++ " to be lower than " ++ Number_toString b)
                (isAtLeast a b None)).
Proof.
  unfold isAbove, isAtLeast, isBelow, strictEqual.
  rewrite !guarded_passes, !guarded_fails. cbn [strict_eq].
  split; [reflexivity|]. split; [apply greater_or_equal_iff|].
  split; [apply greater_or_equal_not_less|]. split.
  - intros Hnan. assert (Hnan' : b = NaN \/ a = NaN) by tauto.
    unfold greater, greater_or_equal, less.
    rewrite (Number_lessThan_NaN a b Hnan), (Number_lessThan_NaN b a Hnan').
    repeat split.
  - intros _ _ H. unfold fails_with. rewrite H. reflexivity.
Qed.

Lemma order_assertions_witness :
  (Int 3 <> NaN /\ Int 5 <> NaN /\
   fails (isBelow (Int 5) (Int 3) None) /\ passes (isAtLeast (Int 5) (Int 3) None)) /\
  ((NaN = NaN \/ Int 3 = NaN) /\ fails (isAtLeast NaN (Int 3) None)) /\
  (safe_integer (Int 3) /\ safe_integer (Int 5) /\
   fails_with "Expected 3 to be lower than 5" (isAtLeast (Int 3) (Int 5) None)).
Proof.
  split; [|split].
  - assert (H3 : Int 3 <> NaN) by discriminate.
    assert (H5 : Int 5 <> NaN) by discriminate.
    assert (Hbelow : fails (isBelow (Int 5) (Int 3) None)) by (eexists; reflexivity).
    split; [exact H3|]. split; [exact H5|]. split; [exact Hbelow|].
    exact (proj2 (proj1 (proj2 (proj2 (order_assertions (Int 5) (Int 3) None))) H5 H3) Hbelow).
  - assert (H : NaN = NaN \/ Int 3 = NaN) by now left.
    split; [exact H|].
    exact (proj1 (proj2 (proj1 (proj2 (proj2 (proj2 (order_assertions NaN (Int 3) None)))) H))).
  - assert (H3 : safe_integer (Int 3)) by (cbn; lia).
    assert (H5 : safe_integer (Int 5)) by (cbn; lia).
    split; [exact H3|]. split; [exact H5|].
    apply (proj2 (proj2 (proj2 (proj2 (order_assertions (Int 3) (Int 5) None)))) H3 H5).
    eexists. reflexivity.
Defined.

(** ** Patterns: [match] and [throws] *)

(** X15: [throws] judges the message of the error as [match] judges a
    string: when [fn] throws an [Error] with message [text],
    [throws(fn, pattern)] passes exactly when [match(text, pattern)]
    passes.  In particular [throws(() => fail(text), pattern)] passes
    exactly when [match(text, pattern)] does. *)
Theorem throws_as_match (fn : unit -> result unit) name text (regexp : pattern)
        (m : option string) :
  fn tt = Throws (ErrorObject name text) ->
  (passes (throws fn regexp) <-> passes (match_ text regexp m)) /\
  (passes (throws (fun _ => fail text) regexp) <-> passes (match_ text regexp m)).
Proof.
  intros Hfn. unfold match_. rewrite computed_guard_passes. unfold throws, passes. split.
  - rewrite Hfn. destruct (String_match text regexp) as [[|]|e]; cbn;
      split; auto; discriminate.
  - cbn [fail call].
    destruct (String_match text regexp) as [[|]|e]; cbn; split; auto; discriminate.
Qed.

Lemma throws_as_match_witness :
  passes (match_ "it went boom" (literal_pattern "boom") None) /\
  passes (throws (fun _ => isOk VNull (Some "it went boom")) (literal_pattern "boom")).
Proof.
  assert (H : passes (match_ "it went boom" (literal_pattern "boom") None)) by reflexivity.
  split; [exact H|].
  apply (proj1 (throws_as_match (fun _ => isOk VNull (Some "it went boom"))
                  "Error" "it went boom" (literal_pattern "boom") None eq_refl)).
  exact H.
Defined.

(** X16: [throws] around another assertion.  When the assertion inside
    passes, [throws] fails with "Expected function to throw"; so
    [throws] never passes on a function that returns, and a [throws]
    around such a [throws] passes exactly when its pattern is found in
    that text. *)
Theorem throws_around_passing (fn : unit -> result unit) (p q : pattern) :
  passes (fn tt) ->
  fails_with "Expected function to throw" (throws fn p) /\
  (passes (throws (fun _ => throws fn p) q) <->
   pattern_found_in q "Expected function to throw" = true).
Proof.
  unfold passes. intros Hfn.
  assert (Hinner : throws fn p = Throws (ErrorObject "Error" "Expected function to throw"))
    by (unfold throws; rewrite Hfn; reflexivity).
  split; [exact Hinner|].
  unfold throws at 1. rewrite Hinner. unfold pattern_found_in.
  destruct (String_match "Expected function to throw" q) as [[|]|e]; cbn;
    split; auto; discriminate.
Qed.

Lemma throws_around_passing_witness :
  passes (isOk (num 1) None) /\
  fails_with "Expected function to throw" (throws (fun _ => isOk (num 1) None) any_pattern) /\
  passes (throws (fun _ => throws (fun _ => isOk (num 1) None) any_pattern)
                 (literal_pattern "to throw")).
Proof.
  assert (H : passes (isOk (num 1) None)) by reflexivity.
  destruct (throws_around_passing (fun _ => isOk (num 1) None) any_pattern
              (literal_pattern "to throw") H) as [Hfail Hnested].
  split; [exact H|]. split; [exact Hfail|]. apply Hnested. reflexivity.
Defined.

(** ** [assert] *)

(** X17: [assert] is [isOk] under another default text: the two pass
    on the same values (the truthy ones) and fail alike with a message
    that is given; without one, [assert] reports "Expected ... to be
    truthy". *)
Theorem assert_as_isOk (condition : value) (m : option string) :
  (passes (assert condition m) <-> truthy condition = true) /\
  (passes (assert condition m) <-> passes (isOk condition m)) /\
  (passes (assert condition m) <-> fails (isNotOk condition m)) /\
  (forall text, text <> EmptyString ->
     assert condition (Some text) = isOk condition (Some text)) /\
  (truthy condition = false ->
     fails_with ("Expected " ++ ToString condition ++ " to be truthy")
                (assert condition None)).
Proof.
  unfold assert, isOk, isNotOk. rewrite !guarded_passes, guarded_fails, negb_false_iff.
  split; [reflexivity|]. split; [reflexivity|]. split; [reflexivity|]. split.
  - intros text Htext. apply String.eqb_neq in Htext. cbn [or_else]. now rewrite Htext.
  - intros H. rewrite H. cbn [return_if then_ or_else].
    rewrite (template_primitive condition (falsy_primitive condition H)). reflexivity.
Qed.

Lemma assert_as_isOk_witness :
  ("no" <> EmptyString /\ assert (num 0) (Some "no") = isOk (num 0) (Some "no")) /\
  (truthy (VStr EmptyString) = false /\
   fails_with "Expected  to be truthy" (assert (VStr EmptyString) None)).
Proof.
  split.
  - assert (H : "no" <> EmptyString) by discriminate. split; [exact H|].
    exact (proj1 (proj2 (proj2 (proj2 (assert_as_isOk (num 0) None)))) "no" H).
  - split; [reflexivity|].
    exact (proj2 (proj2 (proj2 (proj2 (assert_as_isOk (VStr EmptyString) None)))) eq_refl).
Defined.

(** ** [isNotEmpty] *)




(** ** The message that is given *)

Lemma guarded_message cond text fallback :
  text <> EmptyString ->
  fails (call (return_if cond ;;; fail_with (or_else (Some text) fallback))) ->
  fails_with text (call (return_if cond ;;; fail_with (or_else (Some text) fallback))).
Proof.
  intros Htext. apply String.eqb_neq in Htext. unfold fails, fails_with.
  destruct cond; cbn; [intros [e H]; discriminate|]. now rewrite Htext.
Qed.

Lemma computed_guard_message (guard : result bool) text fallback :
  text <> EmptyString ->
  fails (call (with_value guard return_if ;;; fail_with (or_else (Some text) fallback))) ->
  fails_with text
    (call (with_value guard return_if ;;; fail_with (or_else (Some text) fallback))) \/
  exists e, guard = Throws e /\
    call (with_value guard return_if ;;; fail_with (or_else (Some text) fallback)) = Throws e.
Proof.
  intros Htext. apply String.eqb_neq in Htext. unfold fails, fails_with.
  destruct guard as [[|]|e]; cbn.
  - intros [e H]. discriminate.
  - intros _. left. now rewrite Htext.
  - intros _. right. now exists e.
Qed.

Lemma negated_guard_message (guard : result bool) text fallback :
  text <> EmptyString ->
  fails (call (with_value guard (fun same => return_if (negb same)) ;;;
               fail_with (or_else (Some text) fallback))) ->
  fails_with text
    (call (with_value guard (fun same => return_if (negb same)) ;;;
           fail_with (or_else (Some text) fallback))) \/
  exists e, guard = Throws e /\
    call (with_value guard (fun same => return_if (negb same)) ;;;
          fail_with (or_else (Some text) fallback)) = Throws e.
Proof.
  intros Htext. apply String.eqb_neq in Htext. unfold fails, fails_with.
  destruct guard as [[|]|e]; cbn.
  - intros _. left. now rewrite Htext.
  - intros [e H]. discriminate.
  - intros _. right. now exists e.
Qed.

(** X19: a message that is given and not empty is what a failing
    assertion throws, word for word (the default text is then not even
    built), for the assertions whose test cannot throw.  Where the test
    itself may throw ([==] on an object that cannot be converted, a
    pattern that does not compile, the structural comparison), the
    failure is the message or the error of the test. *)
Theorem explicit_message (text : string) :
  text <> EmptyString ->
  let m := Some text in
  (forall x, fails (assert x m) -> fails_with text (assert x m)) /\
  (forall x, fails (isNotOk x m) -> fails_with text (isNotOk x m)) /\
  (forall a b, fails (strictEqual a b m) -> fails_with text (strictEqual a b m)) /\
  (forall a b, fails (notStrictEqual a b m) -> fails_with text (notStrictEqual a b m)) /\
  (forall a b, fails (isAbove a b m) -> fails_with text (isAbove a b m)) /\
  (forall a b, fails (isAtLeast a b m) -> fails_with text (isAtLeast a b m)) /\
  (forall a b, fails (isBelow a b m) -> fails_with text (isBelow a b m)) /\
  (forall x, fails (isTrue x m) -> fails_with text (isTrue x m)) /\
  (forall x, fails (isFalse x m) -> fails_with text (isFalse x m)) /\
  (forall x, fails (isNull x m) -> fails_with text (isNull x m)) /\
  (forall x, fails (isNotNull x m) -> fails_with text (isNotNull x m)) /\
  (forall x, fails (isUndefined x m) -> fails_with text (isUndefined x m)) /\
  (forall h x, fails (include h x m) -> fails_with text (include h x m)) /\
  (forall h x, fails (notInclude h x m) -> fails_with text (notInclude h x m)) /\
  (forall a b, fails (equal a b m) ->
     fails_with text (equal a b m) \/
     exists e, loose_eq a b = Throws e /\ equal a b m = Throws e) /\
  (forall a b, fails (notEqual a b m) ->
     fails_with text (notEqual a b m) \/
     exists e, loose_eq a b = Throws e /\ notEqual a b m = Throws e) /\
  (forall s p, fails (match_ s p m) ->
     fails_with text (match_ s p m) \/
     exists e, String_match s p = Throws e /\ match_ s p m = Throws e) /\
  (forall a b, fails (deepEqual a b m) ->
     fails_with text (deepEqual a b m) \/
     exists e, _deepEqual a b = Throws e /\ deepEqual a b m = Throws e) /\
  (forall a b, fails (notDeepEqual a b m) ->
     fails_with text (notDeepEqual a b m) \/
     exists e, _deepEqual a b = Throws e /\ notDeepEqual a b m = Throws e).
Proof.
  intros Htext m. subst m.
  repeat match goal with
         | |- _ /\ _ => split
         end;
    try (intros; now apply guarded_message);
    try (intros; now apply computed_guard_message);
    try (intros; now apply negated_guard_message).
Qed.

Lemma explicit_message_witness :
  "too small" <> EmptyString /\
  fails (isAbove (Int 1) (Int 2) (Some "too small")) /\
  fails_with "too small" (isAbove (Int 1) (Int 2) (Some "too small")) /\
  fails (isNull record_toString (Some "too small")) /\
  fails_with "too small" (isNull record_toString (Some "too small")).
Proof.
  assert (Htext : "too small" <> EmptyString) by discriminate.
  assert (Hfails : fails (isAbove (Int 1) (Int 2) (Some "too small")))
    by (eexists; reflexivity).
  assert (Hnull : fails (isNull record_toString (Some "too small")))
    by (eexists; reflexivity).
  destruct (explicit_message "too small" Htext)
    as (_ & _ & _ & _ & Habove & _ & _ & _ & _ & HisNull & _).
  split; [exact Htext|]. split; [exact Hfails|].
  split; [exact (Habove (Int 1) (Int 2) Hfails)|].
  split; [exact Hnull|]. exact (HisNull record_toString Hnull).
Defined.

(** ** The deprecated aliases *)

(** X20: [ok], [notOk] and [empty] give the outcome of [isOk],
    [isNotOk] and [isEmpty], and each call writes its one deprecation
    line after what the console already holds, also when the assertion
    fails; so [ok(x)] passes iff [x] is truthy and iff [notOk(x)]
    fails, and [empty] passes on no target on which [isNotEmpty]
    passes. *)
Theorem deprecated_aliases (x : value) (m : option string) (console : list string) :
  fst (ok x m console) = (console ++ ["ok() is deprecated. Use isOk() instead"])%list /\
  fst (notOk x m console) = (console ++ ["notOk() is deprecated. Use isNotOk() instead"])%list /\
  fst (empty x console) = (console ++ ["empty() is deprecated. Use isEmpty() instead"])%list /\
  (passes (snd (ok x m console)) <-> truthy x = true) /\
  (passes (snd (ok x m console)) <-> fails (snd (notOk x m console))) /\
  (passes (snd (empty x console)) <-> passes (isEmpty x)) /\
  ~ (passes (snd (empty x console)) /\ passes (isNotEmpty x)) /\
  List.length (fst (notOk x m (fst (ok x m console)))) = (2 + List.length console)%nat.
Proof.
  unfold ok, notOk, empty, log. cbn [debug fst snd].
  unfold isOk, isNotOk. rewrite guarded_passes, guarded_fails, negb_false_iff.
  repeat split; auto.
  - intros [Hempty Hnot].
    destruct (recognised_shape x) eqn:Hshape.
    + apply (isNotEmpty_recognised x Hshape) in Hnot as [e He].
      unfold passes in Hempty. congruence.
    + destruct (isEmpty_unrecognised x Hshape) as [[e He] _].
      unfold passes in Hnot. congruence.
  - rewrite !length_app. cbn. lia.
Qed.
